(** * Artificial chemistry: the explicit non-constructive reaction vessel

    A shallow embedding of [nonconstructive_explicit.py]: the molecule tally
    ([Molecule.molecules_to_amounts]), the rule test ([Reaction.can_occur]),
    the vessel ([Vessel.__init__], [Vessel.simulate_step]) and the stepping
    loop of [simulate_basic], followed by the properties of the specification
    that concern them.

    Conventions of the embedding.
    - A Python [int] is a [Z]; a list index or a list length is a [nat].
    - A Python [dict] is an association list in insertion order without
      repeated keys ([Dict]); [for ... in d.items()] walks that list.
    - A call that may raise returns a [result]; what was mutated before the
      exception stays mutated, so a method returns the receiver's new state
      next to its [result].
    - The module [random] is an interface ([Random]) whose state is passed
      explicitly: which positions [random.sample] picks and which index
      [random.randrange] returns are the generator's business. *)

From Stdlib Require Import ZArith Floats.PrimFloat Floats.SpecFloat Floats.FloatOps.
From stdpp Require Import base option numbers list strings.

(** ** Exceptions and fallible computations *)

Inductive exn : Set :=
  | KeyError
  | ValueError
  | IndexError
  | ZeroDivisionError
  | OverflowError.

Inductive result (A : Type) : Type :=
  | Ok (a : A)
  | Raise (e : exn).
Arguments Ok {A} a.
Arguments Raise {A} e.

#[global] Instance exn_eq_dec : EqDecision exn.
Proof. solve_decision. Defined.

#[global] Instance result_ret : MRet result := λ A a, Ok a.
#[global] Instance result_bind : MBind result :=
  λ A B f m, match m with Ok a => f a | Raise e => Raise e end.

(** [[f(x) for x in xs]], stopping at the first exception. *)
Fixpoint result_map {A B} (f : A → result B) (xs : list A) : result (list B) :=
  match xs with
  | [] => Ok []
  | x :: xs' => y ← f x; ys ← result_map f xs'; Ok (y :: ys)
  end.

(** [l[i]] and [l[i] = x] for an index [0 <= i]. *)
Definition list_getitem {A} (l : list A) (i : nat) : result A :=
  match l !! i with
  | Some x => Ok x
  | None => Raise IndexError
  end.

Definition list_setitem {A} (l : list A) (i : nat) (x : A) : result (list A) :=
  if decide (i < length l) then Ok (<[i:=x]> l) else Raise IndexError.

(** ** Dictionaries in insertion order *)

Definition Dict (K V : Type) : Type := list (K * V).

Section dict.
Context {K V : Type} `{EqDecision K}.

(** [d.get(k)] *)
Fixpoint dict_get (d : Dict K V) (k : K) : option V :=
  match d with
  | [] => None
  | (k', v) :: d' => if decide (k' = k) then Some v else dict_get d' k
  end.

(** [d[k]] *)
Definition dict_getitem (d : Dict K V) (k : K) : result V :=
  match dict_get d k with
  | Some v => Ok v
  | None => Raise KeyError
  end.

(** [d[k] = v]: an existing key keeps its place, a new one goes last. *)
Fixpoint dict_setitem (d : Dict K V) (k : K) (v : V) : Dict K V :=
  match d with
  | [] => [(k, v)]
  | (k', v') :: d' =>
      if decide (k' = k) then (k', v) :: d' else (k', v') :: dict_setitem d' k v
  end.

Definition dict_keys (d : Dict K V) : list K := d.*1.
Definition dict_values (d : Dict K V) : list V := d.*2.
Definition dict_items (d : Dict K V) : list (K * V) := d.

(** What every Python dict satisfies: no key twice. *)
Definition dict_wf (d : Dict K V) : Prop := NoDup (dict_keys d).
End dict.

(** ** Molecule *)

(** A [Molecule] object. The class defines neither [__eq__] nor [__hash__],
    so two molecules are the same dictionary key exactly when they are the
    same object: [oid] is the object's identity, [name] its attribute. *)
Record Molecule : Set := { oid : nat; name : string }.

#[global] Instance Molecule_eq_dec : EqDecision Molecule.
Proof. solve_decision. Defined.

(** The second loop of [molecules_to_amounts]:
    [for molecule in molecules: molecule_amounts[molecule] += 1]. *)
Fixpoint count_molecules (molecule_amounts : Dict Molecule Z) (molecules : list Molecule)
    : result (Dict Molecule Z) :=
  match molecules with
  | [] => Ok molecule_amounts
  | molecule :: rest =>
      n ← dict_getitem molecule_amounts molecule;
      count_molecules (dict_setitem molecule_amounts molecule (n + 1)%Z) rest
  end.

(** [Molecule.molecules_to_amounts(all_molecules, molecules)] *)
Definition molecules_to_amounts (all_molecules molecules : list Molecule)
    : result (Dict Molecule Z) :=
  let molecule_amounts :=
    foldl (λ d type_of_molecule, dict_setitem d type_of_molecule 0%Z) [] all_molecules in
  count_molecules molecule_amounts molecules.

(** How often [t] occurs in [l]: what the tally is compared with. *)
Definition occurrences (t : Molecule) (l : list Molecule) : Z :=
  Z.of_nat (length (filter (λ m, m = t) l)).

(** ** Reaction *)

Record Reaction : Type := {
  reactants_needed : Dict Molecule Z;
  product : Molecule
}.

(** The [for ... else] of [can_occur] over the items still to visit. *)
Fixpoint can_occur_items (needed : Dict Molecule Z) (items : list (Molecule * Z))
    : result bool :=
  match items with
  | [] => Ok true
  | (reactant, amount) :: rest =>
      required ← dict_getitem needed reactant;
      if decide (amount < required)%Z then Ok false else can_occur_items needed rest
  end.

(** [Reaction.can_occur(self, reactants_amounts)] *)
Definition can_occur (self : Reaction) (reactants_amounts : Dict Molecule Z) : result bool :=
  can_occur_items (reactants_needed self) (dict_items reactants_amounts).

(** An item of the counts meets a requirement: the requirement has an entry
    for its type, and the count is at least the amount of that entry. *)
Definition meets (needed : Dict Molecule Z) (item : Molecule * Z) : Prop :=
  ∃ required, dict_get needed item.1 = Some required ∧ (required ≤ item.2)%Z.

(** ** The random module *)

(** The two calls the vessel makes, as operations on a generator state [G].
    [random.sample] reads its population only through the positions it has
    chosen, so the generator supplies positions: [sample_positions n k g] are
    the [k] positions picked among [n]; [randbelow n g] is the index picked
    below [n > 0]. Both return the generator's next state. *)
Class Random (G : Type) : Type := {
  sample_positions : nat → nat → G → list nat * G;
  randbelow : nat → G → nat * G
}.

(** The contract of the library: [k <= n] distinct positions below [n], and
    an index below a positive bound. *)
Class RandomLaws (G : Type) `{Random G} : Prop := {
  sample_positions_length n k g : k ≤ n → length (sample_positions n k g).1 = k;
  sample_positions_lt n k g : k ≤ n → Forall (λ p, p < n) (sample_positions n k g).1;
  sample_positions_NoDup n k g : k ≤ n → NoDup (sample_positions n k g).1;
  randbelow_lt n g : 0 < n → (randbelow n g).1 < n
}.

Section random.
Context {G : Type} `{Random G}.

(** [random.sample(population, k)]: [ValueError] unless [0 <= k <= len]. *)
Definition random_sample {A} (population : list A) (k : Z) (g : G) : result (list A) * G :=
  let n := length population in
  if decide (0 ≤ k ≤ Z.of_nat n)%Z then
    let '(positions, g') := sample_positions n (Z.to_nat k) g in
    (result_map (list_getitem population) positions, g')
  else (Raise ValueError, g).

(** [random.randrange(stop)] for [stop = len(...)]: [ValueError] on an
    empty range. *)
Definition random_randrange (stop : nat) (g : G) : result nat * G :=
  match stop with
  | 0 => (Raise ValueError, g)
  | S _ => let '(i, g') := randbelow stop g in (Ok i, g')
  end.
End random.

(** ** Vessel *)

Record Vessel : Type := {
  molecule_types : list Molecule;
  molecules : list Molecule;
  reactions : list Reaction
}.

(** [self.molecules[i] = product], the only assignment to a vessel. *)
Definition set_molecules (self : Vessel) (ms : list Molecule) : Vessel :=
  {| molecule_types := molecule_types self; molecules := ms; reactions := reactions self |}.

(** [Vessel.__init__(self, molecule_types, molecule_amounts, reactions)];
    [range(amount)] is empty for [amount <= 0]. *)
Definition Vessel_init (molecule_types : list Molecule) (molecule_amounts : Dict Molecule Z)
    (reactions : list Reaction) : Vessel :=
  {| molecule_types := molecule_types;
     molecules :=
       foldl (λ ms '(molecule, amount), ms ++ replicate (Z.to_nat amount) molecule)
             [] (dict_items molecule_amounts);
     reactions := reactions |}.

Section vessel.
Context {G : Type} `{Random G}.

(** The loop [for reaction in self.reactions: if reaction.can_occur(...):
    ...; break] over the rules still to try. *)
Fixpoint react (self : Vessel) (reactants_amounts : Dict Molecule Z)
    (rules : list Reaction) (g : G) : result () * Vessel * G :=
  match rules with
  | [] => (Ok (), self, g)
  | reaction :: rest =>
      match can_occur reaction reactants_amounts with
      | Raise e => (Raise e, self, g)
      | Ok false => react self reactants_amounts rest g
      | Ok true =>
          match random_randrange (length (molecules self)) g with
          | (Raise e, g') => (Raise e, self, g')
          | (Ok i, g') =>
              match list_setitem (molecules self) i (product reaction) with
              | Raise e => (Raise e, self, g')
              | Ok ms => (Ok (), set_molecules self ms, g')
              end
          end
      end
  end.

(** [Vessel.simulate_step(self, number_to_select)] *)
Definition simulate_step (self : Vessel) (number_to_select : Z) (g : G)
    : result () * Vessel * G :=
  match random_sample (molecules self) number_to_select g with
  | (Raise e, g') => (Raise e, self, g')
  | (Ok reactants, g') =>
      match molecules_to_amounts (molecule_types self) reactants with
      | Raise e => (Raise e, self, g')
      | Ok reactants_amounts => react self reactants_amounts (reactions self) g'
      end
  end.
End vessel.

(** [n] successive calls [self.simulate_step(number_to_select)]; an
    exception ends them. *)
Fixpoint steps {G : Type} `{Random G} (n : nat) (self : Vessel) (number_to_select : Z) (g : G)
    : result () * Vessel * G :=
  match n with
  | 0 => (Ok (), self, g)
  | S n' =>
      match simulate_step self number_to_select g with
      | (Raise e, self', g') => (Raise e, self', g')
      | (Ok _, self', g') => steps n' self' number_to_select g'
      end
  end.

(** *** The outcomes of the rule loop *)

(** A rule declines the counts: its test returns [False]. *)
Definition declines (counts : Dict Molecule Z) (rule : Reaction) : Prop :=
  can_occur rule counts = Ok false.

(** The five ways the rule loop ends: no rule left and none accepted; the
    test of a rule raises; a rule accepts and the vessel is empty; a rule
    accepts and its product is written at the index drawn; the index drawn
    is not one of the list (no generator of [RandomLaws] does that). *)
Inductive react_outcome {G : Type} `{Random G} (self : Vessel) (counts : Dict Molecule Z) (g : G)
    : list Reaction → result () * Vessel * G → Prop :=
  | react_skipped rules :
      Forall (declines counts) rules →
      react_outcome self counts g rules (Ok (), self, g)
  | react_raised pre rule post e :
      Forall (declines counts) pre →
      can_occur rule counts = Raise e →
      react_outcome self counts g (pre ++ rule :: post) (Raise e, self, g)
  | react_empty pre rule post :
      Forall (declines counts) pre →
      can_occur rule counts = Ok true →
      molecules self = [] →
      react_outcome self counts g (pre ++ rule :: post) (Raise ValueError, self, g)
  | react_written pre rule post i g' :
      Forall (declines counts) pre →
      can_occur rule counts = Ok true →
      molecules self ≠ [] →
      randbelow (length (molecules self)) g = (i, g') →
      i < length (molecules self) →
      react_outcome self counts g (pre ++ rule :: post)
        (Ok (), set_molecules self (<[i:=product rule]> (molecules self)), g')
  | react_out_of_range pre rule post i g' :
      Forall (declines counts) pre →
      can_occur rule counts = Ok true →
      molecules self ≠ [] →
      randbelow (length (molecules self)) g = (i, g') →
      length (molecules self) ≤ i →
      react_outcome self counts g (pre ++ rule :: post) (Raise IndexError, self, g').

(** *** Vessels that the rule loop cannot fault *)

(** Every molecule of the population and every product is declared, and
    every requirement has an entry for every declared type. *)
Record vessel_ok (self : Vessel) : Prop := {
  ok_population : Forall (λ m, m ∈ molecule_types self) (molecules self);
  ok_products : Forall (λ rule, product rule ∈ molecule_types self) (reactions self);
  ok_requirements :
    Forall (λ rule, ∀ t, t ∈ molecule_types self → t ∈ dict_keys (reactants_needed rule))
           (reactions self)
}.

(** ** The stepping loop of [simulate_basic] *)

(** [float(z)] for an [int]: the nearest double, ties to even;
    [OverflowError] when there is none. *)
Definition float_of_int (z : Z) : result float :=
  let x := SF2Prim (binary_normalize prec emax z 0 false) in
  if PrimFloat.is_infinity x then Raise OverflowError else Ok x.

(** [amount * 100.0 / total_amount] *)
Definition percentage (amount total_amount : Z) : result float :=
  a ← float_of_int amount;
  t ← float_of_int total_amount;
  if decide (total_amount = 0)%Z then Raise ZeroDivisionError
  else Ok (PrimFloat.div (PrimFloat.mul a (100)%float) t).

(** What a completed iteration has handed to the two plot lines: the
    abscissa [i+1] and the ordinates [percentages_each[0]] and
    [percentages_each[1]]. [loop_body], [loop] and [run] below record the
    samples of the completed iterations; the hand-over itself, statement by
    statement, which an iteration that raises leaves incomplete, is
    [plot_body], [plot_loop] and [plot_run] further down. The periodic
    redraw ([draw], [pause]) is outside the model. *)
Definition Sample : Type := Z * float * float.

Section loop.
Context {G : Type} `{Random G}.
Variables (all_molecules : list Molecule) (total_amount number_to_select : Z).

(** The body of [for i in range(iters)]. *)
Definition loop_body (i : Z) (vessel : Vessel) (g : G) : result Sample * Vessel * G :=
  match simulate_step vessel number_to_select g with
  | (Raise e, vessel', g') => (Raise e, vessel', g')
  | (Ok _, vessel', g') =>
      (amounts_each ← molecules_to_amounts all_molecules (molecules vessel');
       percentages_each ←
         result_map (λ amount, percentage amount total_amount) (dict_values amounts_each);
       pA ← list_getitem percentages_each 0;
       pB ← list_getitem percentages_each 1;
       Ok ((i + 1)%Z, pA, pB),
       vessel', g')
  end.

(** [n] further iterations from index [i]; [emitted] is what the plot has
    received so far. An exception ends the loop. *)
Fixpoint loop (n : nat) (i : Z) (emitted : list Sample) (vessel : Vessel) (g : G)
    : result () * list Sample * Vessel * G :=
  match n with
  | 0 => (Ok (), emitted, vessel, g)
  | S n' =>
      match loop_body i vessel g with
      | (Raise e, vessel', g') => (Raise e, emitted, vessel', g')
      | (Ok s, vessel', g') => loop n' (i + 1)%Z (emitted ++ [s]) vessel' g'
      end
  end.

(** [for i in range(iters): ...] *)
Definition run (iters : Z) (vessel : Vessel) (g : G) : result () * list Sample * Vessel * G :=
  loop (Z.to_nat iters) 0%Z [] vessel g.
End loop.

(** *** The plot lines *)

(** A line of the plot: the arrays behind [get_xdata]/[set_xdata] and
    [get_ydata]/[set_ydata]. [numpy.append(a, [v])] is [a ++ [v]]. *)
Record Line2D : Type := { xdata : list Z; ydata : list float }.

Definition set_xdata (line : Line2D) (xs : list Z) : Line2D :=
  {| xdata := xs; ydata := ydata line |}.
Definition set_ydata (line : Line2D) (ys : list float) : Line2D :=
  {| xdata := xdata line; ydata := ys |}.

(** The two lines [plot_A] and [plot_B], two objects. *)
Record Plot : Type := { plot_A : Line2D; plot_B : Line2D }.

Section plot_loop.
Context {G : Type} `{Random G}.
Variables (all_molecules : list Molecule) (total_amount number_to_select : Z).

(** The body of [for i in range(iters)] with its four plot statements, each
    of which takes effect before the next is evaluated. *)
Definition plot_body (i : Z) (plot : Plot) (vessel : Vessel) (g : G)
    : result () * Plot * Vessel * G :=
  match simulate_step vessel number_to_select g with
  | (Raise e, vessel', g') => (Raise e, plot, vessel', g')
  | (Ok _, vessel', g') =>
      match amounts_each ← molecules_to_amounts all_molecules (molecules vessel');
            result_map (λ amount, percentage amount total_amount) (dict_values amounts_each)
      with
      | Raise e => (Raise e, plot, vessel', g')
      | Ok percentages_each =>
          let plot_A1 := set_xdata (plot_A plot) (xdata (plot_A plot) ++ [(i + 1)%Z]) in
          match list_getitem percentages_each 0 with
          | Raise e => (Raise e, {| plot_A := plot_A1; plot_B := plot_B plot |}, vessel', g')
          | Ok pA =>
              let plot_A2 := set_ydata plot_A1 (ydata plot_A1 ++ [pA]) in
              let plot_B1 := set_xdata (plot_B plot) (xdata (plot_B plot) ++ [(i + 1)%Z]) in
              match list_getitem percentages_each 1 with
              | Raise e =>
                  (Raise e, {| plot_A := plot_A2; plot_B := plot_B1 |}, vessel', g')
              | Ok pB =>
                  (Ok (),
                   {| plot_A := plot_A2;
                      plot_B := set_ydata plot_B1 (ydata plot_B1 ++ [pB]) |},
                   vessel', g')
              end
          end
      end
  end.

(** [n] further iterations from index [i]. An exception ends the loop and
    leaves the plot as the statements before it have made it. *)
Fixpoint plot_loop (n : nat) (i : Z) (plot : Plot) (vessel : Vessel) (g : G)
    : result () * Plot * Vessel * G :=
  match n with
  | 0 => (Ok (), plot, vessel, g)
  | S n' =>
      match plot_body i plot vessel g with
      | (Raise e, plot', vessel', g') => (Raise e, plot', vessel', g')
      | (Ok _, plot', vessel', g') => plot_loop n' (i + 1)%Z plot' vessel' g'
      end
  end.

(** [for i in range(iters): ...] on the plot lines. *)
Definition plot_run (iters : Z) (plot : Plot) (vessel : Vessel) (g : G)
    : result () * Plot * Vessel * G :=
  plot_loop (Z.to_nat iters) 0%Z plot vessel g.
End plot_loop.

(** The plot after a whole sample has been handed over, and after several. *)
Definition plot_add (plot : Plot) (s : Sample) : Plot :=
  {| plot_A := {| xdata := xdata (plot_A plot) ++ [s.1.1];
                  ydata := ydata (plot_A plot) ++ [s.1.2] |};
     plot_B := {| xdata := xdata (plot_B plot) ++ [s.1.1];
                  ydata := ydata (plot_B plot) ++ [s.2] |} |}.

Definition plot_adds (plot : Plot) (samples : list Sample) : Plot :=
  foldl plot_add plot samples.

(** The plot in the middle of the hand-over of abscissa [x]: nothing of it
    yet, or the abscissa of [plot_A], or also the ordinate of [plot_A] and
    the abscissa of [plot_B]. *)
Definition plot_partial (x : Z) (base plot : Plot) : Prop :=
  plot = base
  ∨ plot = {| plot_A := set_xdata (plot_A base) (xdata (plot_A base) ++ [x]);
              plot_B := plot_B base |}
  ∨ ∃ pA,
      plot = {| plot_A := {| xdata := xdata (plot_A base) ++ [x];
                             ydata := ydata (plot_A base) ++ [pA] |};
                plot_B := set_xdata (plot_B base) (xdata (plot_B base) ++ [x]) |}.

(** The reaction table of [simulate_basic]: for [i], [j] in [range(2)], the
    rule needing [all_molecules[i]] and [all_molecules[j]], whose product is
    [all_molecules[0 if i and j else 1]]. *)
Definition basic_reactions (all_molecules : list Molecule) : result (list Reaction) :=
  result_map
    (λ '(i, j),
       mi ← list_getitem all_molecules i;
       mj ← list_getitem all_molecules j;
       reactants_amounts ← molecules_to_amounts all_molecules [mi; mj];
       product ← list_getitem all_molecules
                   (if bool_decide (i ≠ 0) && bool_decide (j ≠ 0) then 0 else 1);
       Ok {| reactants_needed := reactants_amounts; product := product |})
    [(0, 0); (0, 1); (1, 0); (1, 1)].

(** [simulate_basic()], up to the plot. *)
Definition simulate_basic {G : Type} `{Random G} (g : G)
    : result () * list Sample * option Vessel * G :=
  let all_molecules := [ {| oid := 0; name := "A" |}; {| oid := 1; name := "B" |} ] in
  let initial_amount_each := 5000%Z in
  let total_amount := (initial_amount_each * Z.of_nat (length all_molecules))%Z in
  let molecule_amounts := (λ molecule, (molecule, initial_amount_each)) <$> all_molecules in
  match basic_reactions all_molecules with
  | Raise e => (Raise e, [], None, g)
  | Ok reactions =>
      let vessel := Vessel_init all_molecules molecule_amounts reactions in
      let iters := (4 * total_amount)%Z in
      let '(r, emitted, vessel', g') := run all_molecules total_amount 2 iters vessel g in
      (r, emitted, Some vessel', g')
  end.

(** ** Measures used in the statements *)

(** The sum of the entries of a dictionary of amounts. *)
Definition sum_values (d : Dict Molecule Z) : Z := foldr Z.add 0%Z (dict_values d).

(** The amount that [Vessel.__init__] makes of an entry: [range(amount)] has
    [max(amount, 0)] elements. *)
Definition copies (amount : Z) : Z := Z.max 0 amount.

(** A call returned, with whatever value. *)
Definition returned {A} (r : result A) : Prop := ∃ a, r = Ok a.

(** Whether [float(z)] returns. *)
Definition converts (z : Z) : bool :=
  match float_of_int z with Ok _ => true | Raise _ => false end.

(** Whether [float] returns for the [n] integers from [z] on. *)
Fixpoint converts_from (z : Z) (n : nat) : bool :=
  match n with
  | 0 => true
  | S n' => converts z && converts_from (z + 1)%Z n'
  end.

(** ** A scripted generator *)

(** A generator that reads its draws off a tape, one entry per call (an
    exhausted tape reads 0): [sample] takes the [k] consecutive positions
    that start at the entry, [randrange] the entry itself, both modulo the
    bound. *)
Definition Tape : Type := list nat.

#[global] Instance Tape_Random : Random Tape := {|
  sample_positions n k g := ((λ i, (default 0 (head g) + i) mod n) <$> seq 0 k, tail g);
  randbelow n g := (default 0 (head g) mod n, tail g)
|}.

(** ** Molecules, rules and vessels of the examples *)

Definition molA : Molecule := {| oid := 0; name := "A" |}.
Definition molB : Molecule := {| oid := 1; name := "B" |}.
Definition molC : Molecule := {| oid := 2; name := "C" |}.

(** A rule that lists no reactant, and one that lists only [molA]. *)
Definition rule_none_B : Reaction := {| reactants_needed := []; product := molB |}.
Definition rule_A_only : Reaction := {| reactants_needed := [(molA, 1%Z)]; product := molA |}.

(** Rules whose requirement has an entry for [molA] and for [molB]. *)
Definition rule_AB_A : Reaction :=
  {| reactants_needed := [(molA, 1%Z); (molB, 1%Z)]; product := molA |}.
Definition rule_00_B : Reaction :=
  {| reactants_needed := [(molA, 0%Z); (molB, 0%Z)]; product := molB |}.
Definition rule_A0_C : Reaction :=
  {| reactants_needed := [(molA, 1%Z); (molB, 0%Z)]; product := molC |}.


(** The tallies of the samples [molA; molB] and [] over the two types. *)
Definition counts_11 : Dict Molecule Z := [(molA, 1%Z); (molB, 1%Z)].
Definition counts_00 : Dict Molecule Z := [(molA, 0%Z); (molB, 0%Z)].

(** Two molecules of each of the two types. *)
Definition amounts_22 : Dict Molecule Z := [(molA, 2%Z); (molB, 2%Z)].

Definition vessel_22 : Vessel := Vessel_init [molA; molB] amounts_22 [rule_AB_A; rule_00_B].

(** The same vessel with the first rule alone. *)
Definition vessel_AB_only : Vessel := Vessel_init [molA; molB] amounts_22 [rule_AB_A].

(** The table of the scenario of the specification: its second rule lists
    no reactant. *)
Definition vessel_scenario : Vessel :=
  Vessel_init [molA; molB] amounts_22 [rule_AB_A; rule_none_B].

(** No declared type and no molecule; the rule lists no reactant. *)
Definition vessel_empty : Vessel := Vessel_init [] [] [rule_none_B].

(** The first rule lacks an entry for [molB]. *)
Definition vessel_partial : Vessel :=
  Vessel_init [molA; molB] amounts_22 [rule_A_only; rule_00_B].

(** The amounts omit the declared [molB]; the rule's product is undeclared. *)
Definition vessel_invalid : Vessel := Vessel_init [molA; molB] [(molA, 2%Z)] [rule_A0_C].

(** * Properties *)

(** ** Results *)

Lemma list_getitem_Ok {A} (l : list A) (i : nat) (x : A) :
  l !! i = Some x → list_getitem l i = Ok x.
Proof. unfold list_getitem. by intros ->. Qed.

(** Reading a list at positions that exist never raises. *)
Lemma result_map_getitem {A} (l : list A) (positions : list nat) :
  Forall (λ p, p < length l) positions →
  ∃ xs, result_map (list_getitem l) positions = Ok xs
      ∧ Forall (λ x, x ∈ l) xs ∧ length xs = length positions.
Proof.
  induction 1 as [|p ps Hp _ (xs & Hxs & Hin & Hlen)]; simpl.
  - exists []. by repeat split.
  - destruct (lookup_lt_is_Some_2 l p Hp) as [x Hx].
    rewrite (list_getitem_Ok l p x Hx). simpl.
    rewrite Hxs. simpl. exists (x :: xs). repeat split.
    + constructor; [by eapply list_elem_of_lookup_2 | done].
    + simpl. by rewrite Hlen.
Qed.

(** ** Dictionaries *)

Section dict_facts.
Context {K V : Type} `{EqDecision K}.
Implicit Types (d : Dict K V) (k : K) (v : V).

Lemma dict_get_setitem d k v k' :
  dict_get (dict_setitem d k v) k' = if decide (k = k') then Some v else dict_get d k'.
Proof.
  induction d as [|[k0 v0] d IH]; simpl.
  - done.
  - destruct (decide (k0 = k)) as [->|Hne]; simpl.
    + destruct (decide (k = k')); done.
    + rewrite IH. destruct (decide (k0 = k')) as [->|]; [|done].
      by rewrite decide_False by congruence.
Qed.

Lemma dict_get_None d k : dict_get d k = None ↔ k ∉ dict_keys d.
Proof.
  unfold dict_keys. induction d as [|[k0 v0] d IH]; simpl.
  - split; [intros _; apply not_elem_of_nil | done].
  - rewrite not_elem_of_cons. destruct (decide (k0 = k)) as [->|Hne].
    + split; [discriminate | intros [? _]; done].
    + rewrite IH. split; [intros ?; split; [congruence | done] | intros [_ ?]; done].
Qed.

Lemma dict_get_is_Some d k : is_Some (dict_get d k) ↔ k ∈ dict_keys d.
Proof.
  destruct (dict_get d k) as [v|] eqn:E.
  - split; [intros _ | eauto].
    destruct (decide (k ∈ dict_keys d)) as [|Hn]; [done|].
    apply dict_get_None in Hn. congruence.
  - split; [intros [? [=]] | intros Hin].
    apply dict_get_None in E. done.
Qed.

Lemma dict_keys_setitem d k v k' :
  k' ∈ dict_keys (dict_setitem d k v) ↔ k' = k ∨ k' ∈ dict_keys d.
Proof.
  rewrite <-!dict_get_is_Some, dict_get_setitem.
  destruct (decide (k = k')) as [->|Hne].
  - split; [by left | eauto].
  - split; [by right | intros [->|?]; done].
Qed.

Lemma dict_keys_setitem_present d k v :
  k ∈ dict_keys d → dict_keys (dict_setitem d k v) = dict_keys d.
Proof.
  unfold dict_keys. induction d as [|[k0 v0] d IH]; simpl.
  - intros Hin. by apply elem_of_nil in Hin.
  - intros Hin. destruct (decide (k0 = k)) as [->|Hne]; simpl; [done|].
    f_equal. apply IH. apply elem_of_cons in Hin as [->|]; done.
Qed.

Lemma dict_wf_setitem d k v : dict_wf d → dict_wf (dict_setitem d k v).
Proof.
  unfold dict_wf, dict_keys. induction d as [|[k0 v0] d IH]; simpl.
  - intros _. apply NoDup_singleton.
  - rewrite NoDup_cons. intros [Hk0 Hd].
    destruct (decide (k0 = k)) as [->|Hne]; simpl.
    + by apply NoDup_cons.
    + apply NoDup_cons. split; [|by apply IH].
      intros Hin. apply (dict_keys_setitem d k v k0) in Hin as [->|Hin]; done.
Qed.

(** In a dictionary an item is what [get] finds under its key. *)
Lemma dict_items_get d k v : dict_wf d → (k, v) ∈ dict_items d ↔ dict_get d k = Some v.
Proof.
  unfold dict_wf, dict_keys, dict_items. induction d as [|[k0 v0] d IH]; simpl.
  - intros _. split; [intros Hin; by apply elem_of_nil in Hin | discriminate].
  - rewrite NoDup_cons. intros [Hk0 Hd]. rewrite elem_of_cons.
    destruct (decide (k0 = k)) as [->|Hne].
    + split.
      * intros [[= ->]|Hin]; [done|]. exfalso. apply Hk0.
        apply list_elem_of_fmap. by exists (k, v).
      * intros [= ->]. by left.
    + rewrite <-IH by done. split; [intros [[= ? ?]|?]; done | by right].
Qed.
End dict_facts.

(** ** The tally *)

Lemma occurrences_cons t m l :
  occurrences t (m :: l) = ((if decide (m = t) then 1 else 0) + occurrences t l)%Z.
Proof.
  unfold occurrences. rewrite filter_cons.
  destruct (decide (m = t)); simpl; lia.
Qed.

(** The first loop: every declared type gets the entry 0, whatever the
    dictionary held for it before. *)
Lemma zero_entries_spec (all_molecules : list Molecule) (d : Dict Molecule Z) :
  let d' := foldl (λ d t, dict_setitem d t 0%Z) d all_molecules in
  (dict_wf d → dict_wf d')
  ∧ (∀ t, t ∈ dict_keys d' ↔ t ∈ dict_keys d ∨ t ∈ all_molecules)
  ∧ (∀ t, dict_get d' t = if decide (t ∈ all_molecules) then Some 0%Z else dict_get d t).
Proof.
  revert d. induction all_molecules as [|m ms IH]; intros d; cbv zeta; cbn [foldl].
  - split; [done|]. split.
    + intros t. split; [by left | intros [?|Hin]; [done | by apply elem_of_nil in Hin]].
    + intros t. rewrite decide_False; [done | apply not_elem_of_nil].
  - destruct (IH (dict_setitem d m 0%Z)) as (Hwf & Hkeys & Hget).
    cbv zeta in Hwf, Hkeys, Hget. split; [|split].
    + intros Hd. apply Hwf. by apply dict_wf_setitem.
    + intros t. rewrite Hkeys, dict_keys_setitem, elem_of_cons. tauto.
    + intros t. rewrite Hget, dict_get_setitem.
      destruct (decide (t ∈ ms)) as [Hin|Hnin].
      * rewrite decide_True; [done | by right].
      * destruct (decide (m = t)) as [->|Hne].
        -- rewrite decide_True; [done | by left].
        -- rewrite decide_False; [done|].
           rewrite elem_of_cons. intros [->|?]; done.
Qed.

(** The second loop: with every sampled molecule a key, it ends normally,
    keeps the keys in place and adds to each entry its occurrences. *)
Lemma count_molecules_spec (sample : list Molecule) (d : Dict Molecule Z) :
  Forall (λ m, m ∈ dict_keys d) sample →
  ∃ d', count_molecules d sample = Ok d'
      ∧ dict_keys d' = dict_keys d
      ∧ (∀ t, dict_get d' t = (λ n, n + occurrences t sample)%Z <$> dict_get d t).
Proof.
  revert d. induction sample as [|m ms IH]; intros d Hall; simpl.
  - exists d. split; [done|]. split; [done|].
    intros t. destruct (dict_get d t); simpl; [|done].
    f_equal. unfold occurrences. simpl. lia.
  - apply Forall_cons in Hall as [Hm Hms].
    destruct (proj2 (dict_get_is_Some d m) Hm) as [n Hn].
    unfold dict_getitem. rewrite Hn. simpl.
    destruct (IH (dict_setitem d m (n + 1)%Z)) as (d' & Hd' & Hkeys & Hget).
    { rewrite dict_keys_setitem_present; done. }
    exists d'. split; [done|]. split.
    { rewrite Hkeys. by apply dict_keys_setitem_present. }
    intros t. rewrite Hget, dict_get_setitem, occurrences_cons.
    destruct (decide (m = t)) as [->|Hne].
    + rewrite Hn. simpl. f_equal. lia.
    + destruct (dict_get d t); simpl; [f_equal; lia | done].
Qed.

(** When a sampled molecule is not a key, the increment raises. *)
Lemma count_molecules_undeclared (sample : list Molecule) (d : Dict Molecule Z) :
  ¬ Forall (λ m, m ∈ dict_keys d) sample → count_molecules d sample = Raise KeyError.
Proof.
  revert d. induction sample as [|m ms IH]; intros d Hall; simpl.
  - destruct Hall. constructor.
  - unfold dict_getitem. destruct (dict_get d m) as [n|] eqn:Hn; simpl; [|done].
    apply IH. intros Hms. apply Hall. constructor.
    + apply dict_get_is_Some. eauto.
    + eapply Forall_impl; [exact Hms|]. intros x Hx. simpl in Hx.
      by rewrite dict_keys_setitem_present in Hx by (apply dict_get_is_Some; eauto).
Qed.

(** The tally of a declared sample: it exists, its keys are the declared
    types, its entries the occurrences. *)
Lemma tally_spec (all_molecules sample : list Molecule) :
  Forall (λ m, m ∈ all_molecules) sample →
  ∃ d, molecules_to_amounts all_molecules sample = Ok d
     ∧ dict_wf d
     ∧ (∀ t, t ∈ dict_keys d ↔ t ∈ all_molecules)
     ∧ (∀ t, t ∈ all_molecules → dict_get d t = Some (occurrences t sample))
     ∧ (∀ t, t ∉ all_molecules → dict_get d t = None).
Proof.
  intros Hall. unfold molecules_to_amounts.
  destruct (zero_entries_spec all_molecules []) as (Hwf & Hkeys & Hget).
  simpl in Hwf, Hkeys, Hget.
  set (d0 := foldl (λ d t, dict_setitem d t 0%Z) [] all_molecules) in *.
  destruct (count_molecules_spec sample d0) as (d & Hd & Hk & Hg).
  { eapply Forall_impl; [exact Hall|]. intros m Hm. simpl. apply Hkeys. by right. }
  exists d. split; [done|]. split; [|split; [|split]].
  - unfold dict_wf. rewrite Hk. apply Hwf. apply NoDup_nil_2.
  - intros t. rewrite Hk, Hkeys, elem_of_nil. tauto.
  - intros t Hin. rewrite Hg, Hget, decide_True by done. simpl. by rewrite ?Z.add_0_l.
  - intros t Hnin. rewrite Hg, Hget, decide_False by done. done.
Qed.

(** C4. For every list [all_molecules] and every sample whose elements all
    occur in it, [molecules_to_amounts] returns a dictionary whose keys are
    exactly the elements of [all_molecules], each once, and which maps each
    of them to the number of its occurrences in the sample (0 when it does
    not occur; all zeros for the empty sample). *)
Theorem molecules_to_amounts_total (all_molecules sample : list Molecule) :
  Forall (λ m, m ∈ all_molecules) sample →
  ∃ d, molecules_to_amounts all_molecules sample = Ok d
     ∧ dict_wf d
     ∧ (∀ t, t ∈ dict_keys d ↔ t ∈ all_molecules)
     ∧ (∀ t, t ∈ all_molecules → dict_get d t = Some (occurrences t sample))
     ∧ (∀ t, t ∉ all_molecules → dict_get d t = None)
     ∧ (sample = [] → Forall (λ item, item.2 = 0%Z) (dict_items d)).
Proof.
  intros Hall. destruct (tally_spec all_molecules sample Hall) as (d & Hd & Hwf & Hk & Hg & Hn).
  exists d. repeat split; try done; try apply Hk.
  intros ->. apply Forall_forall. intros [t c] Hin. simpl.
  apply dict_items_get in Hin; [|done].
  assert (t ∈ all_molecules) as Ht by (apply Hk, dict_get_is_Some; eauto).
  rewrite (Hg t Ht) in Hin. by injection Hin as <-.
Qed.

(** ** The rule test *)

(** The three ways the scan of the items ends: every item meets the
    requirement; or the first item that does not has an entry and lies below
    it; or it has no entry. *)
Lemma can_occur_items_spec (needed : Dict Molecule Z) (items : list (Molecule * Z)) :
  match can_occur_items needed items with
  | Ok true => Forall (meets needed) items
  | Ok false =>
      ∃ pre t c required post,
        items = pre ++ (t, c) :: post ∧ Forall (meets needed) pre
        ∧ dict_get needed t = Some required ∧ (c < required)%Z
  | Raise e =>
      e = KeyError
      ∧ ∃ pre t c post,
          items = pre ++ (t, c) :: post ∧ Forall (meets needed) pre
          ∧ dict_get needed t = None
  end.
Proof.
  induction items as [|[t c] rest IH]; simpl.
  - constructor.
  - unfold dict_getitem. destruct (dict_get needed t) as [required|] eqn:Hget; simpl.
    + case_decide as Hlt.
      * exists [], t, c, required, rest. by repeat split.
      * assert (meets needed (t, c)) as Hm by (exists required; simpl; split; [done | lia]).
        destruct (can_occur_items needed rest) as [[|]|e].
        -- by constructor.
        -- destruct IH as (pre & t' & c' & r' & post & -> & Hpre & Hg & Hc).
           exists ((t, c) :: pre), t', c', r', post. repeat split; [by constructor | done..].
        -- destruct IH as (-> & pre & t' & c' & post & -> & Hpre & Hg).
           split; [done|].
           exists ((t, c) :: pre), t', c', post. repeat split; [by constructor | done].
    + split; [done|]. exists [], t, c, rest. by repeat split.
Qed.

(** The first item that does not meet the requirement is unique. *)
Lemma first_unmet_unique (needed : Dict Molecule Z) pre1 x1 post1 pre2 x2 post2 :
  pre1 ++ x1 :: post1 = pre2 ++ x2 :: post2 →
  Forall (meets needed) pre1 → ¬ meets needed x1 →
  Forall (meets needed) pre2 → ¬ meets needed x2 →
  pre1 = pre2 ∧ x1 = x2.
Proof.
  revert pre2. induction pre1 as [|y pre1 IH]; intros [|z pre2]; simpl.
  - intros [= -> _]. done.
  - intros [= <- _] _ Hx1 Hz _. apply Forall_cons in Hz as [? _]. done.
  - intros [= -> _] Hy _ _ Hx2. apply Forall_cons in Hy as [? _]. done.
  - intros [= -> Heq] Hy Hx1 Hz Hx2.
    apply Forall_cons in Hy as [_ Hy]. apply Forall_cons in Hz as [_ Hz].
    destruct (IH pre2 Heq Hy Hx1 Hz Hx2) as [-> ->]. done.
Qed.

Lemma can_occur_true (self : Reaction) (counts : Dict Molecule Z) :
  can_occur self counts = Ok true ↔ Forall (meets (reactants_needed self)) counts.
Proof.
  unfold can_occur, dict_items.
  pose proof (can_occur_items_spec (reactants_needed self) counts) as Hspec.
  split.
  - intros Heq. by rewrite Heq in Hspec.
  - intros Hall. destruct (can_occur_items (reactants_needed self) counts) as [[|]|e]; [done|..].
    + destruct Hspec as (pre & t & c & required & post & -> & _ & Hg & Hc).
      apply Forall_app in Hall as [_ Hall]. apply Forall_cons in Hall as [(n & Hn & Hle) _].
      simpl in *. rewrite Hg in Hn. injection Hn as <-. lia.
    + destruct Hspec as (_ & pre & t & c & post & -> & _ & Hg).
      apply Forall_app in Hall as [_ Hall]. apply Forall_cons in Hall as [(n & Hn & _) _].
      simpl in *. congruence.
Qed.

Lemma can_occur_raises (self : Reaction) (counts : Dict Molecule Z) (e : exn) :
  can_occur self counts = Raise e ↔
  e = KeyError ∧
  ∃ pre t c post,
    counts = pre ++ (t, c) :: post ∧ Forall (meets (reactants_needed self)) pre
    ∧ dict_get (reactants_needed self) t = None.
Proof.
  unfold can_occur, dict_items.
  pose proof (can_occur_items_spec (reactants_needed self) counts) as Hspec.
  split.
  - intros Heq. by rewrite Heq in Hspec.
  - intros (-> & pre & t & c & post & Hcounts & Hpre & Hnone).
    assert (¬ meets (reactants_needed self) (t, c)) as Hnot.
    { intros (n & Hn & _). simpl in Hn. congruence. }
    destruct (can_occur_items (reactants_needed self) counts) as [[|]|e].
    + rewrite Hcounts in Hspec. apply Forall_app in Hspec as [_ Hspec].
      apply Forall_cons in Hspec as [? _]. done.
    + destruct Hspec as (pre' & t' & c' & r' & post' & Heq & Hpre' & Hg & Hc).
      rewrite Hcounts in Heq.
      destruct (first_unmet_unique _ _ _ _ _ _ _ Heq Hpre Hnot Hpre') as [_ [= -> ->]].
      * intros (n & Hn & Hle). simpl in *. rewrite Hg in Hn. injection Hn as <-. lia.
      * congruence.
    + by destruct Hspec as (-> & _).
Qed.

(** The scan looks a requirement up only at the keys of the counts. *)
Lemma can_occur_items_ext (needed needed' : Dict Molecule Z) (items : list (Molecule * Z)) :
  (∀ t, t ∈ items.*1 → dict_get needed t = dict_get needed' t) →
  can_occur_items needed items = can_occur_items needed' items.
Proof.
  induction items as [|[t c] rest IH]; simpl; intros Hagree; [done|].
  unfold dict_getitem. rewrite <-(Hagree t) by (by left).
  destruct (dict_get needed t) as [required|]; simpl; [|done].
  case_decide; [done|]. apply IH. intros t' Hin. apply Hagree. by right.
Qed.

(** C2, as the code has it. For a rule whose requirement has the same keys as
    the counts (both total over the declared types), [can_occur] returns a
    boolean, and returns [True] exactly when [counts[type] >= amount] for
    every [(type, amount)] of the requirement. For a rule with an empty
    requirement it returns [True] only on empty counts: on any other counts
    the lookup of the first counted type raises [KeyError]. *)
Theorem can_occur_total (self : Reaction) (counts : Dict Molecule Z) :
  dict_wf (reactants_needed self) → dict_wf counts →
  ((∀ t, t ∈ dict_keys counts ↔ t ∈ dict_keys (reactants_needed self)) →
     (∃ b, can_occur self counts = Ok b)
     ∧ (can_occur self counts = Ok true ↔
        ∀ t required, (t, required) ∈ dict_items (reactants_needed self) →
          ∃ c, dict_get counts t = Some c ∧ (required ≤ c)%Z))
  ∧ (reactants_needed self = [] →
     (counts = [] → can_occur self counts = Ok true)
     ∧ (counts ≠ [] → can_occur self counts = Raise KeyError)).
Proof.
  intros Hwfn Hwfc. split.
  - intros Hkeys. split.
    + destruct (can_occur self counts) as [b|e] eqn:Heq; [eauto|].
      apply can_occur_raises in Heq as (_ & pre & t & c & post & -> & _ & Hnone).
      apply dict_get_None in Hnone. exfalso. apply Hnone, Hkeys.
      unfold dict_keys. rewrite fmap_app, fmap_cons. apply elem_of_app. right. by left.
    + rewrite can_occur_true, Forall_forall. split.
      * intros Hall t required Hin.
        apply dict_items_get in Hin; [|done].
        assert (t ∈ dict_keys counts) as Ht.
        { apply Hkeys, dict_get_is_Some. eauto. }
        apply dict_get_is_Some in Ht as [c Hc]. exists c. split; [done|].
        destruct (Hall (t, c)) as (n & Hn & Hle).
        { by apply (dict_items_get counts). }
        simpl in *. rewrite Hin in Hn. injection Hn as <-. done.
      * intros Hall [t c] Htc.
        apply (dict_items_get counts) in Htc; [|done].
        assert (t ∈ dict_keys (reactants_needed self)) as Ht.
        { apply Hkeys, dict_get_is_Some. eauto. }
        apply dict_get_is_Some in Ht as [required Hr].
        destruct (Hall t required) as (c' & Hc' & Hle).
        { by apply dict_items_get. }
        exists required. simpl. split; [done|]. congruence.
  - intros Hempty. unfold can_occur, dict_items. rewrite Hempty. split.
    + by intros ->.
    + destruct counts as [|[t c] rest]; [done|]. by intros _.
Qed.

(** C10, as the code has it. [can_occur] walks the items of the counts, in
    their order, and looks each type up in the requirement. It raises exactly
    [KeyError], and exactly when some counted type has no entry in the
    requirement while every item before it meets the requirement (an earlier
    item below its required amount makes the call return [False] first).
    Entries of the requirement for types that are not counted are never
    read: two rules whose requirements agree on the counted types give the
    same answer. *)
Theorem can_occur_walks_counts (self : Reaction) (counts : Dict Molecule Z) :
  (∀ e, can_occur self counts = Raise e ↔
     e = KeyError ∧
     ∃ pre t c post,
       counts = pre ++ (t, c) :: post
       ∧ Forall (meets (reactants_needed self)) pre
       ∧ dict_get (reactants_needed self) t = None)
  ∧ (∀ other : Reaction,
       (∀ t, t ∈ dict_keys counts →
          dict_get (reactants_needed self) t = dict_get (reactants_needed other) t) →
       can_occur self counts = can_occur other counts).
Proof.
  split.
  - intros e. apply can_occur_raises.
  - intros other Hagree. unfold can_occur. by apply can_occur_items_ext.
Qed.

(** ** The rule loop *)

Section react_facts.
Context {G : Type} `{Random G}.
Implicit Types (self : Vessel) (counts : Dict Molecule Z) (g : G).

(** The loop ends in one of the five ways of [react_outcome]. *)
Lemma react_sound self counts rules g :
  react_outcome self counts g rules (react self counts rules g).
Proof.
  induction rules as [|rule rest IH]; simpl.
  - apply react_skipped. constructor.
  - destruct (can_occur rule counts) as [[|]|e] eqn:Hocc.
    + unfold random_randrange.
      destruct (molecules self) as [|m ms] eqn:Hms; simpl.
      * apply (react_empty self counts g [] rule rest); [constructor | done..].
      * destruct (randbelow (S (length ms)) g) as [i g'] eqn:Hi.
        unfold list_setitem. simpl. case_decide as Hlt.
        -- rewrite <-Hms.
           apply (react_written self counts g [] rule rest i g'); [constructor | done | | |].
           ++ by rewrite Hms.
           ++ by rewrite Hms.
           ++ by rewrite Hms.
        -- apply (react_out_of_range self counts g [] rule rest i g'); [constructor | done | | |].
           ++ by rewrite Hms.
           ++ by rewrite Hms.
           ++ rewrite Hms. simpl. lia.
    + inversion IH as [rules Hall | pre r post e Hpre Hr | pre r post Hpre Hr Hms
                       | pre r post i g' Hpre Hr Hms Hi Hlt
                       | pre r post i g' Hpre Hr Hms Hi Hlt]; subst.
      * apply react_skipped. by constructor.
      * apply (react_raised self counts g (rule :: pre)); [by constructor | done].
      * apply (react_empty self counts g (rule :: pre)); [by constructor | done..].
      * apply (react_written self counts g (rule :: pre) r post i); [by constructor | done..].
      * apply (react_out_of_range self counts g (rule :: pre) r post i); [by constructor | done..].
    + apply (react_raised self counts g [] rule rest e); [constructor | done].
Qed.

(** Whatever happens, the loop leaves the length of the population alone. *)
Lemma react_length self counts rules g :
  length (molecules (react self counts rules g).1.2) = length (molecules self).
Proof.
  destruct (react_sound self counts rules g); simpl; try done.
  apply length_insert.
Qed.

(** The loop never touches the declared types or the rule table. *)
Lemma react_static self counts rules g :
  molecule_types (react self counts rules g).1.2 = molecule_types self
  ∧ reactions (react self counts rules g).1.2 = reactions self.
Proof. by destruct (react_sound self counts rules g). Qed.

(** Without an accepting rule the loop leaves the vessel alone. *)
Lemma react_none_accepts self counts rules g :
  (∀ rule, rule ∈ rules → can_occur rule counts ≠ Ok true) →
  (react self counts rules g).1.2 = self.
Proof.
  intros Hnone.
  destruct (react_sound self counts rules g) as [| | pre rule | pre rule | pre rule]; simpl;
    try done; exfalso; apply (Hnone rule); try done;
    apply elem_of_app; right; by left.
Qed.

(** An exception leaves the vessel alone. *)
Lemma react_raise_unchanged self counts rules g e self' g' :
  react self counts rules g = (Raise e, self', g') → self' = self.
Proof.
  intros Heq. pose proof (react_sound self counts rules g) as Hout.
  rewrite Heq in Hout. inversion Hout; subst; done.
Qed.

End react_facts.

(** ** One step *)

Section step_facts.
Context {G : Type} `{Random G}.
Implicit Types (self : Vessel) (counts : Dict Molecule Z) (g : G).

(** A step is the rule loop on the tally of the sample, when both exist. *)
Lemma simulate_step_react self k g reactants g1 counts :
  random_sample (molecules self) k g = (Ok reactants, g1) →
  molecules_to_amounts (molecule_types self) reactants = Ok counts →
  simulate_step self k g = react self counts (reactions self) g1.
Proof. unfold simulate_step. by intros -> ->. Qed.

(** A step that does not reach the rule loop raises and changes nothing. *)
Lemma simulate_step_cases self k g :
  (∃ e g1, simulate_step self k g = (Raise e, self, g1))
  ∨ (∃ reactants g1 counts,
       random_sample (molecules self) k g = (Ok reactants, g1)
       ∧ molecules_to_amounts (molecule_types self) reactants = Ok counts
       ∧ simulate_step self k g = react self counts (reactions self) g1).
Proof.
  unfold simulate_step.
  destruct (random_sample (molecules self) k g) as [[reactants|e] g1]; [|left; eauto].
  destruct (molecules_to_amounts (molecule_types self) reactants) as [counts|e] eqn:Ht;
    [|left; eauto].
  right. by exists reactants, g1, counts.
Qed.

Lemma simulate_step_raise_unchanged self k g e self' g' :
  simulate_step self k g = (Raise e, self', g') → self' = self.
Proof.
  destruct (simulate_step_cases self k g)
    as [(e0 & g0 & Heq) | (reactants & g1 & counts & _ & _ & Heq)]; rewrite Heq.
  - congruence.
  - apply react_raise_unchanged.
Qed.

(** A step never touches the declared types or the rule table. *)
Lemma simulate_step_static self k g :
  molecule_types (simulate_step self k g).1.2 = molecule_types self
  ∧ reactions (simulate_step self k g).1.2 = reactions self.
Proof.
  destruct (simulate_step_cases self k g)
    as [(e0 & g0 & Heq) | (reactants & g1 & counts & _ & _ & Heq)]; rewrite Heq; [done|].
  apply react_static.
Qed.
End step_facts.

(** C1. For every vessel, every argument and every state of the generator
    (so whatever is sampled, whether a rule accepts it or not, and whether
    the call returns or raises), the population has the same length after
    [simulate_step] as before. *)
Theorem simulate_step_length {G : Type} `{Random G} (self : Vessel) (k : Z) (g : G) :
  length (molecules (simulate_step self k g).1.2) = length (molecules self).
Proof.
  destruct (simulate_step_cases self k g)
    as [(e0 & g0 & Heq) | (reactants & g1 & counts & _ & _ & Heq)]; rewrite Heq; [done|].
  apply react_length.
Qed.

(** C5. If no rule of the table accepts the counts tallied from the sampled
    reactants, the step leaves the vessel as it was: the population holds at
    every position the molecule it held before. *)
Theorem simulate_step_no_match {G : Type} `{Random G} (self : Vessel) (k : Z) (g : G) :
  (∀ reactants g1 counts,
     random_sample (molecules self) k g = (Ok reactants, g1) →
     molecules_to_amounts (molecule_types self) reactants = Ok counts →
     ∀ rule, rule ∈ reactions self → can_occur rule counts ≠ Ok true) →
  (simulate_step self k g).1.2 = self
  ∧ ∀ j, molecules (simulate_step self k g).1.2 !! j = molecules self !! j.
Proof.
  intros Hnone.
  assert ((simulate_step self k g).1.2 = self) as Heq; [|by rewrite Heq].
  destruct (simulate_step_cases self k g)
    as [(e0 & g0 & Heq) | (reactants & g1 & counts & Hs & Ht & Heq)]; rewrite Heq; [done|].
  apply react_none_accepts. by eapply Hnone.
Qed.

(** What a step that has returned after a match has done, and what a step
    that has raised has not. *)
Lemma step_frame {G : Type} `{Random G} (self : Vessel) (k : Z) (g : G)
    (r : result ()) (self' : Vessel) (g' : G) :
  simulate_step self k g = (r, self', g') →
  match r with
  | Raise _ => self' = self ∧ molecules self' = molecules self
  | Ok _ =>
      ∀ reactants g1 counts,
        random_sample (molecules self) k g = (Ok reactants, g1) →
        molecules_to_amounts (molecule_types self) reactants = Ok counts →
        (∃ rule, rule ∈ reactions self ∧ can_occur rule counts = Ok true) →
        ∃ pre rule post i,
          reactions self = pre ++ rule :: post
          ∧ Forall (declines counts) pre
          ∧ can_occur rule counts = Ok true
          ∧ i < length (molecules self)
          ∧ molecules self' = <[i:=product rule]> (molecules self)
          ∧ molecules self' !! i = Some (product rule)
          ∧ ∀ j, j ≠ i → molecules self' !! j = molecules self !! j
  end.
Proof.
  intros Hstep. destruct r as [[]|e].
  - intros reactants g1 counts Hs Ht (accepting & Hin & Hacc).
    rewrite (simulate_step_react self k g reactants g1 counts Hs Ht) in Hstep.
    pose proof (react_sound self counts (reactions self) g1) as Hout.
    rewrite Hstep in Hout.
    inversion Hout as [rules Hall | | | pre rule post i g2 Hpre Hr Hms Hi Hlt | ]; subst.
    + rewrite Forall_forall in Hall. specialize (Hall accepting Hin).
      unfold declines in Hall. congruence.
    + exists pre, rule, post, i. simpl. repeat split; try done.
      * by apply list_lookup_insert_eq.
      * intros j Hne. by apply list_lookup_insert_ne.
  - by rewrite (simulate_step_raise_unchanged self k g e self' g' Hstep).
Qed.

(** ** The rule that is applied *)

Section first_match.
Context {G : Type} `{!Random G} `{!RandomLaws G}.
Implicit Types (self : Vessel) (counts : Dict Molecule Z) (g : G).

Lemma react_all_decline self counts rules g :
  Forall (declines counts) rules → react self counts rules g = (Ok (), self, g).
Proof.
  induction 1 as [|rule rest Hrule _ IH]; simpl; [done|].
  unfold declines in Hrule. by rewrite Hrule.
Qed.

(** With a lawful generator and a non-empty vessel, the first rule that
    does not decline, if it accepts, has its product written. *)
Lemma react_first_accepting self counts pre rule post g :
  Forall (declines counts) pre →
  can_occur rule counts = Ok true →
  molecules self ≠ [] →
  ∃ i g',
    randbelow (length (molecules self)) g = (i, g')
    ∧ i < length (molecules self)
    ∧ react self counts (pre ++ rule :: post) g
      = (Ok (), set_molecules self (<[i:=product rule]> (molecules self)), g').
Proof.
  intros Hpre Hacc Hms. induction Hpre as [|r rest Hr _ IH]; simpl.
  - rewrite Hacc. unfold random_randrange.
    destruct (length (molecules self)) as [|n] eqn:Hlen.
    { by destruct (molecules self). }
    rewrite <-Hlen.
    destruct (randbelow (length (molecules self)) g) as [i g'] eqn:Hi.
    assert (i < length (molecules self)) as Hlt.
    { change i with (i, g').1. rewrite <-Hi. apply randbelow_lt. lia. }
    exists i, g'. unfold list_setitem. by rewrite decide_True.
  - unfold declines in Hr. by rewrite Hr.
Qed.
End first_match.

(** C3, as the code has it. Let the sample be drawn and tallied. If every
    rule before some rule of the table declines the counts (its test returns
    [False], without raising) and that rule accepts them, then, the
    population being non-empty, the step returns normally having written
    that rule's product, and nothing else, at the index drawn: of two rules
    that accept, the earlier one is applied. If no rule accepts the counts,
    no rule is applied and the vessel is as before; if all decline, the
    step returns normally. *)
Theorem simulate_step_first_match {G : Type} `{!Random G} `{!RandomLaws G}
    (self : Vessel) (k : Z) (g : G) (reactants : list Molecule) (g1 : G)
    (counts : Dict Molecule Z) :
  random_sample (molecules self) k g = (Ok reactants, g1) →
  molecules_to_amounts (molecule_types self) reactants = Ok counts →
  (∀ pre rule post,
     reactions self = pre ++ rule :: post →
     Forall (declines counts) pre →
     can_occur rule counts = Ok true →
     molecules self ≠ [] →
     ∃ i g',
       randbelow (length (molecules self)) g1 = (i, g')
       ∧ i < length (molecules self)
       ∧ simulate_step self k g
         = (Ok (), set_molecules self (<[i:=product rule]> (molecules self)), g'))
  ∧ ((∀ rule, rule ∈ reactions self → can_occur rule counts ≠ Ok true) →
     (simulate_step self k g).1.2 = self)
  ∧ (Forall (declines counts) (reactions self) →
     simulate_step self k g = (Ok (), self, g1)).
Proof.
  intros Hs Ht. rewrite (simulate_step_react self k g reactants g1 counts Hs Ht).
  split; [|split].
  - intros pre rule post -> Hpre Hacc Hms. by apply react_first_accepting.
  - apply react_none_accepts.
  - apply react_all_decline.
Qed.

(** The rule loop passes over the rules that decline. *)
Lemma react_skips_declining {G : Type} `{!Random G} (self : Vessel)
    (counts : Dict Molecule Z) (pre rest : list Reaction) (g : G) :
  Forall (declines counts) pre →
  react self counts (pre ++ rest) g = react self counts rest g.
Proof.
  induction 1 as [|rule pre Hrule _ IH]; simpl; [done|].
  unfold declines in Hrule. by rewrite Hrule.
Qed.

(** C6, as the code has it. Let the sample be drawn and tallied, and let a
    rule accept the counts after every rule before it has declined them.
    If the population is not empty, the step returns having overwritten
    exactly one index, with that rule's product, and every other index holds
    what it held; if the population is empty, the step raises [ValueError]
    and overwrites nothing. If instead the test of that rule raises, so does
    the step, whatever rules follow. A step that has returned after some
    rule accepted has overwritten one index in this way, and a step that
    raises, for whatever reason, leaves the vessel and its population
    unchanged. *)
Theorem simulate_step_replaces_one {G : Type} `{!Random G} `{!RandomLaws G}
    (self : Vessel) (k : Z) (g : G) :
  (∀ e self' g',
     simulate_step self k g = (Raise e, self', g') →
     self' = self ∧ molecules self' = molecules self)
  ∧ ∀ reactants g1 counts,
      random_sample (molecules self) k g = (Ok reactants, g1) →
      molecules_to_amounts (molecule_types self) reactants = Ok counts →
      (∀ pre rule post,
         reactions self = pre ++ rule :: post →
         Forall (declines counts) pre →
         can_occur rule counts = Ok true →
         (molecules self ≠ [] →
          ∃ i g',
            i < length (molecules self)
            ∧ simulate_step self k g
              = (Ok (), set_molecules self (<[i:=product rule]> (molecules self)), g')
            ∧ <[i:=product rule]> (molecules self) !! i = Some (product rule)
            ∧ ∀ j, j ≠ i → <[i:=product rule]> (molecules self) !! j = molecules self !! j)
         ∧ (molecules self = [] → simulate_step self k g = (Raise ValueError, self, g1)))
      ∧ (∀ pre rule post e,
           reactions self = pre ++ rule :: post →
           Forall (declines counts) pre →
           can_occur rule counts = Raise e →
           simulate_step self k g = (Raise e, self, g1))
      ∧ (∀ self' g',
           simulate_step self k g = (Ok (), self', g') →
           (∃ rule, rule ∈ reactions self ∧ can_occur rule counts = Ok true) →
           ∃ pre rule post i,
             reactions self = pre ++ rule :: post
             ∧ Forall (declines counts) pre
             ∧ can_occur rule counts = Ok true
             ∧ i < length (molecules self)
             ∧ molecules self' = <[i:=product rule]> (molecules self)
             ∧ molecules self' !! i = Some (product rule)
             ∧ ∀ j, j ≠ i → molecules self' !! j = molecules self !! j).
Proof.
  split.
  { intros e self' g' Hstep.
    by rewrite (simulate_step_raise_unchanged self k g e self' g' Hstep). }
  intros reactants g1 counts Hs Ht.
  rewrite (simulate_step_react self k g reactants g1 counts Hs Ht).
  split; [|split].
  - intros pre rule post Hrules Hpre Hacc. rewrite Hrules. split.
    + intros Hms.
      destruct (react_first_accepting self counts pre rule post g1 Hpre Hacc Hms)
        as (i & g' & _ & Hlt & Hreact).
      exists i, g'. split; [done|]. split; [done|]. split.
      * by apply list_lookup_insert_eq.
      * intros j Hne. by apply list_lookup_insert_ne.
    + intros Hnil. rewrite (react_skips_declining self counts pre _ g1 Hpre). simpl.
      by rewrite Hacc, Hnil.
  - intros pre rule post e Hrules Hpre Hraise. rewrite Hrules.
    rewrite (react_skips_declining self counts pre _ g1 Hpre). simpl. by rewrite Hraise.
  - intros self' g' Hstep Hsome.
    rewrite <-(simulate_step_react self k g reactants g1 counts Hs Ht) in Hstep.
    exact (step_frame self k g (Ok ()) self' g' Hstep reactants g1 counts Hs Ht Hsome).
Qed.

(** ** The scripted generator is lawful *)

Lemma rotation_inj (a n i j : nat) :
  i < n → j < n → (a + i) mod n = (a + j) mod n → i = j.
Proof.
  intros Hi Hj Heq.
  rewrite <-(Nat.Div0.add_mod_idemp_l a i n), <-(Nat.Div0.add_mod_idemp_l a j n) in Heq.
  pose proof (Nat.mod_upper_bound a n ltac:(lia)) as Ha.
  set (b := a mod n) in *. clearbody b.
  assert (∀ x, x < n → (b + x) mod n = if decide (b + x < n) then b + x else b + x - n) as Hmod.
  { intros x Hx. case_decide.
    - by apply Nat.mod_small.
    - replace (b + x) with (b + x - n + 1 * n) at 1 by lia.
      rewrite Nat.Div0.mod_add. apply Nat.mod_small. lia. }
  rewrite !Hmod in Heq by done. repeat case_decide; lia.
Qed.

#[global] Instance Tape_RandomLaws : RandomLaws Tape.
Proof.
  split; simpl.
  - intros n k g _. by rewrite length_fmap, length_seq.
  - intros n k g Hk. apply Forall_fmap, Forall_forall. intros i Hi. simpl.
    apply elem_of_seq in Hi. apply Nat.mod_upper_bound. lia.
  - intros n k g Hk. apply NoDup_fmap_2_strong; [|apply NoDup_seq].
    intros i j Hi Hj. apply elem_of_seq in Hi, Hj.
    apply rotation_inj; lia.
  - intros n g Hn. apply Nat.mod_upper_bound. lia.
Qed.

(** ** Construction *)

Lemma extend_all (amounts : Dict Molecule Z) (ms : list Molecule) :
  foldl (λ ms '(molecule, amount), ms ++ replicate (Z.to_nat amount) molecule) ms amounts
  = ms ++ mjoin ((λ '(molecule, amount), replicate (Z.to_nat amount) molecule) <$> amounts).
Proof.
  revert ms. induction amounts as [|[m a] rest IH]; intros ms; simpl.
  - by rewrite app_nil_r.
  - by rewrite IH, <-app_assoc.
Qed.

(** The configurations from which the constructor makes a vessel that the
    rule loop cannot fault. *)
Lemma Vessel_init_ok (types : list Molecule) (amounts : Dict Molecule Z)
    (rules : list Reaction) :
  Forall (λ m, m ∈ types) (dict_keys amounts) →
  Forall (λ rule, product rule ∈ types) rules →
  Forall (λ rule, ∀ t, t ∈ types → t ∈ dict_keys (reactants_needed rule)) rules →
  vessel_ok (Vessel_init types amounts rules).
Proof.
  intros Hkeys Hprod Hreq. split; simpl; [|done..].
  rewrite extend_all. simpl. unfold dict_keys in Hkeys.
  induction amounts as [|[m a] rest IH]; simpl; [constructor|].
  apply Forall_cons in Hkeys as [Hm Hrest].
  apply Forall_app. split; [|by apply IH].
  apply Forall_replicate. done.
Qed.

(** C7, as the code has it. The code validates no configuration. The
    constructor accepts any declared types, amounts and rules: it stores the
    types and the rules as given and fills the population with
    [max(amount, 0)] copies of each molecule of the amounts, in their order.
    A sample size outside [0, M] is reported only by [simulate_step], by the
    [ValueError] of [random.sample], with the vessel and the generator
    untouched, and the sample size 0 is sampled like any other; an iteration
    count of zero or less runs no step and raises nothing. *)
Theorem Vessel_init_unchecked (types : list Molecule) (amounts : Dict Molecule Z)
    (rules : list Reaction) :
  molecule_types (Vessel_init types amounts rules) = types
  ∧ reactions (Vessel_init types amounts rules) = rules
  ∧ molecules (Vessel_init types amounts rules)
    = mjoin ((λ '(molecule, amount), replicate (Z.to_nat amount) molecule) <$> amounts)
  ∧ (∀ (G : Type) (HG : Random G) (k : Z) (g : G),
       ¬ (0 ≤ k ≤ Z.of_nat (length (molecules (Vessel_init types amounts rules))))%Z →
       simulate_step (Vessel_init types amounts rules) k g
       = (Raise ValueError, Vessel_init types amounts rules, g))
  ∧ (∀ (G : Type) (HG : Random G) (g : G),
       RandomLaws G →
       ∃ g1, random_sample (molecules (Vessel_init types amounts rules)) 0 g = (Ok [], g1))
  ∧ (∀ (G : Type) (HG : Random G) (all_molecules : list Molecule) (total k iters : Z) (g : G),
       (iters ≤ 0)%Z →
       run all_molecules total k iters (Vessel_init types amounts rules) g
       = (Ok (), [], Vessel_init types amounts rules, g)).
Proof.
  repeat split.
  - simpl. by rewrite extend_all.
  - intros G HG k g Hk. unfold simulate_step, random_sample.
    by rewrite decide_False.
  - intros G HG g Hlaws. unfold random_sample. rewrite decide_True by lia.
    pose proof (sample_positions_length
                  (length (molecules (Vessel_init types amounts rules))) 0 g ltac:(lia)) as Hlen.
    change (Z.to_nat 0) with 0.
    destruct (sample_positions _ 0 g) as [positions g1]. simpl in Hlen.
    apply nil_length_inv in Hlen as ->. by exists g1.
  - intros G HG all_molecules total k iters g Hiters. unfold run.
    by replace (Z.to_nat iters) with 0 by lia.
Qed.

(** ** Steps without end *)

Section accepted.
Context {G : Type} `{!Random G} `{!RandomLaws G}.
Implicit Types (self : Vessel) (counts : Dict Molecule Z) (g : G).

(** A sample of a legal size is drawn from the population. *)
Lemma random_sample_Ok (population : list Molecule) (k : Z) g :
  (0 ≤ k ≤ Z.of_nat (length population))%Z →
  ∃ reactants g1,
    random_sample population k g = (Ok reactants, g1)
    ∧ Forall (λ m, m ∈ population) reactants
    ∧ length reactants = Z.to_nat k.
Proof.
  intros Hk. unfold random_sample. rewrite decide_True by done.
  assert (Z.to_nat k ≤ length population) as Hle by lia.
  pose proof (sample_positions_lt (length population) (Z.to_nat k) g Hle) as Hlt.
  pose proof (sample_positions_length (length population) (Z.to_nat k) g Hle) as Hlen.
  destruct (sample_positions (length population) (Z.to_nat k) g) as [positions g1].
  simpl in Hlt, Hlen.
  destruct (result_map_getitem population positions Hlt) as (xs & Hxs & Hin & Hl).
  exists xs, g1. rewrite Hxs. repeat split; [done | congruence].
Qed.

(** A rule that lists every counted type answers the test. *)
Lemma can_occur_answers (rule : Reaction) counts :
  (∀ t, t ∈ dict_keys counts → t ∈ dict_keys (reactants_needed rule)) →
  ∃ b, can_occur rule counts = Ok b.
Proof.
  intros Hkeys. destruct (can_occur rule counts) as [b|e] eqn:Heq; [eauto|].
  apply can_occur_raises in Heq as (_ & pre & t & c & post & -> & _ & Hnone).
  apply dict_get_None in Hnone. exfalso. apply Hnone, Hkeys.
  unfold dict_keys. rewrite fmap_app, fmap_cons. apply elem_of_app. right. by left.
Qed.

(** When every rule answers, the loop on a non-empty vessel returns, with
    the vessel as it was or with one product written. *)
Lemma react_returns self counts rules g :
  molecules self ≠ [] →
  Forall (λ rule, ∃ b, can_occur rule counts = Ok b) rules →
  ∃ self' g',
    react self counts rules g = (Ok (), self', g')
    ∧ (self' = self
       ∨ ∃ rule i, rule ∈ rules ∧ i < length (molecules self)
           ∧ self' = set_molecules self (<[i:=product rule]> (molecules self))).
Proof.
  intros Hms Hans.
  destruct (react_sound self counts rules g)
    as [rules _ | pre rule post e _ Hr | pre rule post _ _ Hnil
        | pre rule post i g' _ _ _ Hi Hlt | pre rule post i g' _ _ _ Hi Hge].
  - eauto.
  - apply Forall_app in Hans as [_ Hans]. apply Forall_cons in Hans as [[b Hb] _].
    congruence.
  - done.
  - eexists _, _. split; [done|]. right. exists rule, i. repeat split; [|done].
    apply elem_of_app. right. by left.
  - pose proof (randbelow_lt (length (molecules self)) g) as Hlt.
    rewrite Hi in Hlt. simpl in Hlt.
    destruct (molecules self); [done | simpl in *; lia].
Qed.

(** On a vessel that the rule loop cannot fault, a step with a legal
    sample size returns, and the vessel stays such a vessel. *)
Lemma simulate_step_returns self k g :
  vessel_ok self → molecules self ≠ [] →
  (0 ≤ k ≤ Z.of_nat (length (molecules self)))%Z →
  ∃ self' g',
    simulate_step self k g = (Ok (), self', g')
    ∧ vessel_ok self' ∧ molecules self' ≠ []
    ∧ length (molecules self') = length (molecules self)
    ∧ molecule_types self' = molecule_types self
    ∧ reactions self' = reactions self.
Proof.
  intros [Hpop Hprod Hreq] Hms Hk.
  destruct (random_sample_Ok (molecules self) k g Hk) as (reactants & g1 & Hs & Hin & _).
  assert (Forall (λ m, m ∈ molecule_types self) reactants) as Hdecl.
  { rewrite Forall_forall in Hin, Hpop |- *. eauto. }
  destruct (tally_spec _ _ Hdecl) as (counts & Ht & _ & Hkeys & _).
  rewrite (simulate_step_react self k g reactants g1 counts Hs Ht).
  destruct (react_returns self counts (reactions self) g1 Hms)
    as (self' & g' & Hr & [-> | (rule & i & Hrule & Hi & ->)]).
  { eapply Forall_impl; [exact Hreq|]. intros rule Hrule. simpl in Hrule.
    apply can_occur_answers. intros t Htc. apply Hrule, Hkeys, Htc. }
  - exists self, g'. split; [done|]. split; [by constructor|]. by repeat split.
  - eexists _, g'. split; [done|]. split; [constructor|]; simpl; repeat split; try done.
    + apply Forall_insert; [done|].
      rewrite Forall_forall in Hprod. by apply Hprod.
    + intros Hnil. apply (f_equal length) in Hnil.
      rewrite length_insert in Hnil. by destruct (molecules self).
    + apply length_insert.
Qed.
End accepted.

(** The table of [simulate_basic]: A+A, A+B and B+A give B, and B+B gives A;
    every requirement lists both types. *)
Lemma basic_reactions_table :
  basic_reactions [molA; molB]
  = Ok [ {| reactants_needed := [(molA, 2%Z); (molB, 0%Z)]; product := molB |};
         {| reactants_needed := [(molA, 1%Z); (molB, 1%Z)]; product := molB |};
         {| reactants_needed := [(molA, 1%Z); (molB, 1%Z)]; product := molB |};
         {| reactants_needed := [(molA, 0%Z); (molB, 2%Z)]; product := molA |} ].
Proof. reflexivity. Qed.

(** Any number of steps return, one after the other. *)
Lemma steps_return {G : Type} `{!Random G} `{!RandomLaws G} (self : Vessel) (k : Z) :
  vessel_ok self → molecules self ≠ [] →
  (0 ≤ k ≤ Z.of_nat (length (molecules self)))%Z →
  ∀ (n : nat) (g : G),
    ∃ self' g',
      steps n self k g = (Ok (), self', g')
      ∧ vessel_ok self' ∧ molecules self' ≠ []
      ∧ length (molecules self') = length (molecules self).
Proof.
  intros Hok Hms Hk n. revert self Hok Hms Hk.
  induction n as [|n IH]; intros self Hok Hms Hk g; simpl.
  - by exists self, g.
  - destruct (simulate_step_returns self k g Hok Hms Hk)
      as (self1 & g1 & Hs & Hok1 & Hms1 & Hlen1 & _).
    rewrite Hs.
    destruct (IH self1 Hok1 Hms1 ltac:(by rewrite Hlen1) g1)
      as (self' & g' & Hsteps & Hok' & Hms' & Hlen').
    exists self', g'. do 3 (split; [done|]). congruence.
Qed.

(** The vessel of [simulate_basic] is one that the rule loop cannot fault:
    with a lawful generator its steps, two molecules at a time, all
    return. *)
Lemma simulate_basic_steps {G : Type} `{!Random G} `{!RandomLaws G}
    (reactions : list Reaction) (n : nat) (g : G) :
  basic_reactions [molA; molB] = Ok reactions →
  ∃ self' g',
    steps n (Vessel_init [molA; molB] ((λ m, (m, 5000%Z)) <$> [molA; molB]) reactions) 2 g
    = (Ok (), self', g')
    ∧ Z.of_nat (length (molecules self')) = 10000%Z.
Proof.
  rewrite basic_reactions_table. intros [= <-].
  set (v := Vessel_init _ _ _).
  assert (Z.of_nat (length (molecules v)) = 10000%Z) as Hlen by (vm_compute; reflexivity).
  destruct (steps_return v 2) with (n := n) (g := g) as (self' & g' & Hs & _ & _ & Hl).
  - apply Vessel_init_ok; simpl.
    + repeat (apply Forall_cons; split; [solve [repeat constructor]|]). apply Forall_nil_2.
    + repeat (apply Forall_cons; split; [solve [repeat constructor]|]). apply Forall_nil_2.
    + repeat (apply Forall_cons; split; [intros t Ht; exact Ht|]). apply Forall_nil_2.
  - intros Hnil. rewrite Hnil in Hlen. discriminate.
  - rewrite Hlen. lia.
  - exists self', g'. split; [done | congruence].
Qed.

(** C8, as the code has it. A vessel has no state beyond its three
    attributes: no step counter and no terminal state. With a lawful
    generator, on a non-empty vessel that the rule loop cannot fault and for
    a sample size in [0, M], any number of successive steps all return
    normally, the population keeps its length, and the step invoked after
    them is carried out like the ones before: it returns normally too. *)
Theorem steps_always_accepted {G : Type} `{!Random G} `{!RandomLaws G}
    (self : Vessel) (k : Z) :
  vessel_ok self → molecules self ≠ [] →
  (0 ≤ k ≤ Z.of_nat (length (molecules self)))%Z →
  ∀ (n : nat) (g : G),
    ∃ self' g',
      steps n self k g = (Ok (), self', g')
      ∧ vessel_ok self'
      ∧ length (molecules self') = length (molecules self)
      ∧ ∃ self'' g'', simulate_step self' k g' = (Ok (), self'', g'').
Proof.
  intros Hok Hms Hk n g.
  destruct (steps_return self k Hok Hms Hk n g) as (self' & g' & Hs & Hok' & Hms' & Hlen').
  exists self', g'. do 3 (split; [done|]).
  destruct (simulate_step_returns self' k g' Hok' Hms' ltac:(by rewrite Hlen'))
    as (self'' & g'' & Hstep & _).
  eauto.
Qed.

(** ** The examples *)

Lemma vessel_22_ok : vessel_ok vessel_22.
Proof.
  split; simpl.
  - repeat (apply Forall_cons; split; [solve [repeat constructor]|]).
    apply Forall_nil_2.
  - repeat (apply Forall_cons; split; [solve [repeat constructor]|]).
    apply Forall_nil_2.
  - repeat (apply Forall_cons; split; [intros t Ht; exact Ht|]).
    apply Forall_nil_2.
Qed.

(** C4 on the sample A, B, A over the types A, B. *)
Lemma molecules_to_amounts_total_witness :
  Forall (λ m, m ∈ [molA; molB]) [molA; molB; molA]
  ∧ ∃ d, molecules_to_amounts [molA; molB] [molA; molB; molA] = Ok d
       ∧ dict_wf d
       ∧ (∀ t, t ∈ dict_keys d ↔ t ∈ [molA; molB])
       ∧ (∀ t, t ∈ [molA; molB] → dict_get d t = Some (occurrences t [molA; molB; molA]))
       ∧ (∀ t, t ∉ [molA; molB] → dict_get d t = None)
       ∧ ([molA; molB; molA] = [] → Forall (λ item, item.2 = 0%Z) (dict_items d)).
Proof.
  assert (Forall (λ m, m ∈ [molA; molB]) [molA; molB; molA]) as Hall.
  { repeat (apply Forall_cons; split; [solve [repeat constructor]|]).
    apply Forall_nil_2. }
  split; [exact Hall|].
  exact (molecules_to_amounts_total [molA; molB] [molA; molB; molA] Hall).
Defined.

(** The scenario of the specification, on the code: the sample A, A is
    declined by the first rule, and the test of the second, which lists no
    reactant, raises. *)
Lemma scenario_sample_AA_raises :
  random_sample (molecules vessel_scenario) 2 ([0; 0] : Tape) = (Ok [molA; molA], [0])
  ∧ simulate_step vessel_scenario 2 ([0; 0] : Tape) = (Raise KeyError, vessel_scenario, [0]).
Proof. by split. Qed.

(** C2 fails as stated. The counts of the sample A, B are total over the
    declared types A and B, the rule lists no reactant, and the test raises
    [KeyError] instead of returning [True]. *)
Lemma can_occur_empty_requirement_raises :
  molecules_to_amounts [molA; molB] [molA; molB] = Ok counts_11
  ∧ reactants_needed rule_none_B = []
  ∧ can_occur rule_none_B counts_11 = Raise KeyError.
Proof. repeat split. Qed.

(** C2 on the rule A + B -> A and the counts of the sample A, B. *)
Lemma can_occur_total_witness :
  dict_wf (reactants_needed rule_AB_A) ∧ dict_wf counts_11
  ∧ (∀ t, t ∈ dict_keys counts_11 ↔ t ∈ dict_keys (reactants_needed rule_AB_A))
  ∧ (∃ b, can_occur rule_AB_A counts_11 = Ok b)
  ∧ (can_occur rule_AB_A counts_11 = Ok true ↔
     ∀ t required, (t, required) ∈ dict_items (reactants_needed rule_AB_A) →
       ∃ c, dict_get counts_11 t = Some c ∧ (required ≤ c)%Z).
Proof.
  assert (dict_wf counts_11) as Hwf.
  { apply (bool_decide_unpack (NoDup [molA; molB])). exact I. }
  assert (∀ t, t ∈ dict_keys counts_11 ↔ t ∈ dict_keys (reactants_needed rule_AB_A)) as Hkeys.
  { intros t. reflexivity. }
  split; [exact Hwf|]. split; [exact Hwf|]. split; [exact Hkeys|].
  exact (proj1 (can_occur_total rule_AB_A counts_11 Hwf Hwf) Hkeys).
Defined.

(** C10 fails as stated. The counts of the empty sample hold B, for which
    the rule has no entry, and the test returns [False] at A before it
    reaches B. *)
Lemma can_occur_returns_before_missing_key :
  molecules_to_amounts [molA; molB] [] = Ok counts_00
  ∧ molB ∈ dict_keys counts_00
  ∧ dict_get (reactants_needed rule_A_only) molB = None
  ∧ can_occur rule_A_only counts_00 = Ok false.
Proof. repeat split. repeat constructor. Qed.

(** C3 fails as stated. The sample A, B is tallied; the test of the first
    rule raises, so the second rule, the first whose test returns [True], is
    never tried and its product is not written. *)
Lemma first_accepting_rule_not_applied :
  random_sample (molecules vessel_partial) 2 ([1; 0] : Tape) = (Ok [molA; molB], [0])
  ∧ molecules_to_amounts (molecule_types vessel_partial) [molA; molB] = Ok counts_11
  ∧ reactions vessel_partial = [rule_A_only; rule_00_B]
  ∧ can_occur rule_A_only counts_11 = Raise KeyError
  ∧ can_occur rule_00_B counts_11 = Ok true
  ∧ simulate_step vessel_partial 2 ([1; 0] : Tape) = (Raise KeyError, vessel_partial, [0]).
Proof. repeat split. Qed.

(** C3 on the vessel A, A, B, B: the sample A, B is accepted by the first
    rule, whose product A is written at index 3. *)
Lemma simulate_step_first_match_witness :
  random_sample (molecules vessel_22) 2 ([1; 3] : Tape) = (Ok [molA; molB], [3])
  ∧ molecules_to_amounts (molecule_types vessel_22) [molA; molB] = Ok counts_11
  ∧ ∃ i g',
      randbelow (length (molecules vessel_22)) ([3] : Tape) = (i, g')
      ∧ i < length (molecules vessel_22)
      ∧ simulate_step vessel_22 2 ([1; 3] : Tape)
        = (Ok (), set_molecules vessel_22 (<[i:=product rule_AB_A]> (molecules vessel_22)), g').
Proof.
  split; [reflexivity|]. split; [reflexivity|].
  refine (proj1 (simulate_step_first_match vessel_22 2 ([1; 3] : Tape) [molA; molB] [3]
                   counts_11 eq_refl eq_refl) [] rule_AB_A [rule_00_B] eq_refl _ eq_refl _).
  - apply Forall_nil_2.
  - discriminate.
Defined.

(** C5 on the vessel A, A, B, B with the rule A + B -> A alone: the sample
    A, A is declined. *)
Lemma simulate_step_no_match_witness :
  (∀ reactants g1 counts,
     random_sample (molecules vessel_AB_only) 2 ([0; 0] : Tape) = (Ok reactants, g1) →
     molecules_to_amounts (molecule_types vessel_AB_only) reactants = Ok counts →
     ∀ rule, rule ∈ reactions vessel_AB_only → can_occur rule counts ≠ Ok true)
  ∧ (simulate_step vessel_AB_only 2 ([0; 0] : Tape)).1.2 = vessel_AB_only
  ∧ ∀ j, molecules (simulate_step vessel_AB_only 2 ([0; 0] : Tape)).1.2 !! j
         = molecules vessel_AB_only !! j.
Proof.
  assert (∀ reactants g1 counts,
     random_sample (molecules vessel_AB_only) 2 ([0; 0] : Tape) = (Ok reactants, g1) →
     molecules_to_amounts (molecule_types vessel_AB_only) reactants = Ok counts →
     ∀ rule, rule ∈ reactions vessel_AB_only → can_occur rule counts ≠ Ok true) as Hnone.
  { intros reactants g1 counts Hs Ht rule Hin.
    vm_compute in Hs. injection Hs as <- <-.
    vm_compute in Ht. injection Ht as <-.
    apply list_elem_of_singleton in Hin as ->. discriminate. }
  split; [exact Hnone|].
  exact (simulate_step_no_match vessel_AB_only 2 ([0; 0] : Tape) Hnone).
Defined.

(** C6 fails as stated. On the empty vessel the sample of size 0 is tallied
    and the rule accepts the empty counts, yet no index is overwritten:
    [randrange(0)] raises. On the vessel A, A, B, B whose first rule lacks an
    entry for B, the second rule accepts the counts of A, B, yet the test of
    the first has raised and nothing is overwritten either. *)
Lemma accepted_without_overwrite :
  random_sample (molecules vessel_empty) 0 ([0; 0] : Tape) = (Ok [], [0])
  ∧ molecules_to_amounts (molecule_types vessel_empty) [] = Ok []
  ∧ reactions vessel_empty = [rule_none_B]
  ∧ can_occur rule_none_B [] = Ok true
  ∧ simulate_step vessel_empty 0 ([0; 0] : Tape) = (Raise ValueError, vessel_empty, [0])
  ∧ molecules_to_amounts (molecule_types vessel_partial) [molA; molB] = Ok counts_11
  ∧ rule_00_B ∈ reactions vessel_partial
  ∧ can_occur rule_00_B counts_11 = Ok true
  ∧ simulate_step vessel_partial 2 ([1; 0] : Tape) = (Raise KeyError, vessel_partial, [0]).
Proof. repeat split. repeat constructor. Qed.

(** C6 on the vessel A, A, B, B: the sample A, B is accepted by the first
    rule, and the step writes its product A at index 3 and leaves the
    indices 0, 1 and 2 alone. *)
Lemma simulate_step_replaces_one_witness :
  random_sample (molecules vessel_22) 2 ([1; 3] : Tape) = (Ok [molA; molB], [3])
  ∧ molecules_to_amounts (molecule_types vessel_22) [molA; molB] = Ok counts_11
  ∧ can_occur rule_AB_A counts_11 = Ok true
  ∧ molecules vessel_22 ≠ []
  ∧ ∃ i g',
      i < length (molecules vessel_22)
      ∧ simulate_step vessel_22 2 ([1; 3] : Tape)
        = (Ok (), set_molecules vessel_22 (<[i:=product rule_AB_A]> (molecules vessel_22)), g')
      ∧ <[i:=product rule_AB_A]> (molecules vessel_22) !! i = Some (product rule_AB_A)
      ∧ ∀ j, j ≠ i →
          <[i:=product rule_AB_A]> (molecules vessel_22) !! j = molecules vessel_22 !! j.
Proof.
  assert (molecules vessel_22 ≠ []) as Hms by discriminate.
  do 3 (split; [reflexivity|]). split; [exact Hms|].
  exact (proj1 (proj1 (proj2 (simulate_step_replaces_one vessel_22 2 ([1; 3] : Tape))
                         [molA; molB] [3] counts_11 eq_refl eq_refl)
                  [] rule_AB_A [rule_00_B] eq_refl (Forall_nil_2 _) eq_refl) Hms).
Defined.

(** C7 fails as stated. The amounts omit the declared B and the product C of
    the only rule is undeclared, yet the vessel is constructed, and a step
    on it runs and writes C. A sample size above M = 2 is refused only by
    the step; a negative iteration count is not refused at all. *)
Lemma invalid_configuration_accepted :
  molecules vessel_invalid = [molA; molA]
  ∧ (molB ∉ dict_keys [(molA, 2%Z)])
  ∧ (product rule_A0_C ∉ molecule_types vessel_invalid)
  ∧ simulate_step vessel_invalid 1 ([0; 0] : Tape)
    = (Ok (), set_molecules vessel_invalid [molC; molA], [])
  ∧ simulate_step vessel_invalid 3 ([0; 0] : Tape) = (Raise ValueError, vessel_invalid, [0; 0])
  ∧ run [molA; molB] 2 1 (-1) vessel_invalid ([0; 0] : Tape)
    = (Ok (), [], vessel_invalid, [0; 0]).
Proof.
  split; [reflexivity|]. split.
  { apply (bool_decide_unpack (molB ∉ [molA])). exact I. }
  split.
  { apply (bool_decide_unpack (molC ∉ [molA; molB])). exact I. }
  repeat split.
Qed.

(** C8 fails as stated. The loop runs its two iterations on the vessel
    A, A, B, B and hands two samples to the plot; the step invoked after it
    returns normally and writes A over the B at index 2. *)
Lemma step_after_the_run_accepted :
  run [molA; molB] 4 2 2 vessel_22 ([0; 0; 0; 1; 0; 2] : Tape)
  = (Ok (), [(1%Z, 25%float, 75%float); (2%Z, 25%float, 75%float)],
     set_molecules vessel_22 [molB; molA; molB; molB], [0; 2])
  ∧ simulate_step (set_molecules vessel_22 [molB; molA; molB; molB]) 2 ([0; 2] : Tape)
    = (Ok (), set_molecules vessel_22 [molB; molA; molA; molB], []).
Proof. split; vm_compute; reflexivity. Qed.

(** C8 on the vessel A, A, B, B: five steps return, and so does the sixth. *)
Lemma steps_always_accepted_witness :
  vessel_ok vessel_22
  ∧ molecules vessel_22 ≠ []
  ∧ (0 ≤ 2 ≤ Z.of_nat (length (molecules vessel_22)))%Z
  ∧ ∃ self' g',
      steps 5 vessel_22 2 ([0; 0; 0; 1; 0; 2] : Tape) = (Ok (), self', g')
      ∧ vessel_ok self'
      ∧ length (molecules self') = length (molecules vessel_22)
      ∧ ∃ self'' g'', simulate_step self' 2 g' = (Ok (), self'', g'').
Proof.
  assert (molecules vessel_22 ≠ []) as Hms by discriminate.
  assert (0 ≤ 2 ≤ Z.of_nat (length (molecules vessel_22)))%Z as Hk by (simpl; lia).
  split; [exact vessel_22_ok|]. split; [exact Hms|]. split; [exact Hk|].
  exact (steps_always_accepted vessel_22 2 vessel_22_ok Hms Hk 5 [0; 0; 0; 1; 0; 2]).
Defined.

(** * Further properties of the code *)

(** ** The tally: errors, order and sum *)

Lemma zero_entries_keys (all_molecules : list Molecule) (t : Molecule) :
  t ∈ dict_keys (foldl (λ d t, dict_setitem d t 0%Z) [] all_molecules) ↔ t ∈ all_molecules.
Proof.
  destruct (zero_entries_spec all_molecules []) as (_ & Hkeys & _).
  cbv zeta in Hkeys. rewrite Hkeys. simpl. rewrite elem_of_nil. tauto.
Qed.

(** When the tally raises, and what. *)
Lemma tally_raises (all_molecules sample : list Molecule) (e : exn) :
  molecules_to_amounts all_molecules sample = Raise e ↔
  e = KeyError ∧ ∃ m, m ∈ sample ∧ m ∉ all_molecules.
Proof.
  split.
  - intros Heq. destruct (decide (Forall (λ m, m ∈ all_molecules) sample)) as [Hall|Hnot].
    + destruct (tally_spec _ _ Hall) as (d & Hd & _). congruence.
    + unfold molecules_to_amounts in Heq. rewrite count_molecules_undeclared in Heq.
      * split; [congruence|]. apply not_Forall_Exists in Hnot; [|apply _].
        apply Exists_exists in Hnot as (m & Hin & Hm). eauto.
      * intros Hkeys. apply Hnot. eapply Forall_impl; [exact Hkeys|].
        intros m Hm. exact (proj1 (zero_entries_keys all_molecules m) Hm).
  - intros (-> & m & Hin & Hnin). unfold molecules_to_amounts.
    apply count_molecules_undeclared. rewrite Forall_forall. intros Hall.
    apply Hnin, zero_entries_keys, Hall, Hin.
Qed.

(** X1. [molecules_to_amounts] raises exactly when the sample holds a
    molecule that is not in [all_molecules], and then it raises [KeyError]:
    the increment finds no entry for it. *)
Theorem molecules_to_amounts_raises (all_molecules sample : list Molecule) (e : exn) :
  molecules_to_amounts all_molecules sample = Raise e ↔
  e = KeyError ∧ ∃ m, m ∈ sample ∧ m ∉ all_molecules.
Proof. apply tally_raises. Qed.

Lemma sum_values_cons (k : Molecule) (v : Z) (d : Dict Molecule Z) :
  sum_values ((k, v) :: d) = (v + sum_values d)%Z.
Proof. done. Qed.

Lemma sum_values_setitem (d : Dict Molecule Z) (k : Molecule) (v n : Z) :
  dict_get d k = Some n → sum_values (dict_setitem d k v) = (sum_values d - n + v)%Z.
Proof.
  induction d as [|[k0 v0] d IH]; cbn [dict_get dict_setitem]; [done|].
  destruct (decide (k0 = k)) as [->|Hne]; rewrite !sum_values_cons.
  - intros [= ->]. lia.
  - intros Hget. rewrite (IH Hget). lia.
Qed.

Lemma sum_values_fresh (d : Dict Molecule Z) (k : Molecule) (v : Z) :
  dict_get d k = None → sum_values (dict_setitem d k v) = (sum_values d + v)%Z.
Proof.
  induction d as [|[k0 v0] d IH]; cbn [dict_get dict_setitem].
  - intros _. rewrite sum_values_cons. unfold sum_values. simpl. lia.
  - destruct (decide (k0 = k)) as [->|Hne]; rewrite !sum_values_cons; [done|].
    intros Hget. rewrite (IH Hget). lia.
Qed.

Lemma zero_entries_sum (all_molecules : list Molecule) (d : Dict Molecule Z) :
  sum_values d = 0%Z → Forall (λ item, item.2 = 0%Z) d →
  sum_values (foldl (λ d t, dict_setitem d t 0%Z) d all_molecules) = 0%Z.
Proof.
  revert d. induction all_molecules as [|m ms IH]; intros d Hsum Hzero; cbn [foldl]; [done|].
  assert (∀ d' : Dict Molecule Z, Forall (λ item, item.2 = 0%Z) d' →
            Forall (λ item : Molecule * Z, item.2 = 0%Z) (dict_setitem d' m 0%Z)) as Hset.
  { clear. induction d' as [|[k0 v0] d' IH']; simpl; intros Hz.
    - by repeat constructor.
    - apply Forall_cons in Hz as [Hv Hz]. destruct (decide (k0 = m)); constructor; auto. }
  apply IH; [|by apply Hset].
  destruct (dict_get d m) as [n|] eqn:Hget.
  - rewrite (sum_values_setitem d m 0 n Hget).
    assert (n = 0%Z) as ->; [|lia].
    assert ((m, n) ∈ d) as Hin.
    { clear -Hget. induction d as [|[k0 v0] d IH]; simpl in Hget; [done|].
      destruct (decide (k0 = m)) as [->|]; [injection Hget as ->; by left | right; auto]. }
    rewrite Forall_forall in Hzero. exact (Hzero _ Hin).
  - rewrite (sum_values_fresh d m 0 Hget). lia.
Qed.

Lemma count_molecules_sum (sample : list Molecule) (d d' : Dict Molecule Z) :
  count_molecules d sample = Ok d' →
  sum_values d' = (sum_values d + Z.of_nat (length sample))%Z.
Proof.
  revert d. induction sample as [|m ms IH]; intros d; simpl.
  - intros [= <-]. lia.
  - unfold dict_getitem. destruct (dict_get d m) as [n|] eqn:Hget; simpl; [|done].
    intros Hrest. rewrite (IH _ Hrest), (sum_values_setitem d m _ n Hget). lia.
Qed.

(** The entries of a tally add up to the length of the sample. *)
Lemma tally_sum (all_molecules sample : list Molecule) (d : Dict Molecule Z) :
  molecules_to_amounts all_molecules sample = Ok d →
  sum_values d = Z.of_nat (length sample).
Proof.
  unfold molecules_to_amounts. intros Hd.
  rewrite (count_molecules_sum _ _ _ Hd), zero_entries_sum; [lia | done | constructor].
Qed.

(** X2. The entries of a tally add up to the length of the sample: every
    sampled molecule is counted once, under one type. *)
Theorem molecules_to_amounts_sum (all_molecules sample : list Molecule) (d : Dict Molecule Z) :
  molecules_to_amounts all_molecules sample = Ok d →
  sum_values d = Z.of_nat (length sample).
Proof. apply tally_sum. Qed.

(** X2 on the sample A, B, A. *)
Lemma molecules_to_amounts_sum_witness :
  molecules_to_amounts [molA; molB] [molA; molB; molA] = Ok [(molA, 2%Z); (molB, 1%Z)]
  ∧ sum_values [(molA, 2%Z); (molB, 1%Z)] = Z.of_nat (length [molA; molB; molA]).
Proof.
  split; [reflexivity|].
  exact (molecules_to_amounts_sum [molA; molB] [molA; molB; molA] _ eq_refl).
Defined.

Lemma dict_setitem_fresh (d : Dict Molecule Z) (k : Molecule) (v : Z) :
  k ∉ dict_keys d → dict_setitem d k v = d ++ [(k, v)].
Proof.
  unfold dict_keys. induction d as [|[k0 v0] d IH]; simpl; [done|].
  rewrite not_elem_of_cons. intros [Hne Hnin].
  rewrite decide_False by done. by rewrite IH.
Qed.

Lemma zero_entries_distinct (all_molecules : list Molecule) (d : Dict Molecule Z) :
  NoDup all_molecules → (∀ t, t ∈ all_molecules → t ∉ dict_keys d) →
  foldl (λ d t, dict_setitem d t 0%Z) d all_molecules
  = d ++ ((λ t, (t, 0%Z)) <$> all_molecules).
Proof.
  intros Hnd. revert d. induction Hnd as [|m ms Hm Hnd IH]; intros d Hfresh; cbn [foldl].
  - by rewrite app_nil_r.
  - rewrite dict_setitem_fresh by (apply Hfresh; by left).
    rewrite IH.
    + by rewrite <-app_assoc.
    + intros t Ht. unfold dict_keys. rewrite fmap_app. simpl.
      rewrite not_elem_of_app, list_elem_of_singleton. split.
      * apply Hfresh. by right.
      * intros ->. done.
Qed.

(** The items of a dictionary are its keys with what [get] finds. *)
Lemma dict_items_of_get (d : Dict Molecule Z) (f : Molecule → Z) :
  dict_wf d → (∀ t, t ∈ dict_keys d → dict_get d t = Some (f t)) →
  d = (λ t, (t, f t)) <$> dict_keys d.
Proof.
  unfold dict_wf, dict_keys. induction d as [|[k0 v0] d IH]; simpl; [done|].
  rewrite NoDup_cons. intros [Hk0 Hnd] Hget. f_equal.
  - specialize (Hget k0 ltac:(by left)). rewrite decide_True in Hget by done. congruence.
  - apply IH; [done|]. intros t Ht. specialize (Hget t ltac:(by right)).
    rewrite decide_False in Hget; [done|]. intros ->. done.
Qed.

Lemma tally_ordered (all_molecules sample : list Molecule) :
  NoDup all_molecules → Forall (λ m, m ∈ all_molecules) sample →
  molecules_to_amounts all_molecules sample
  = Ok ((λ t, (t, occurrences t sample)) <$> all_molecules).
Proof.
  intros Hnd Hall. unfold molecules_to_amounts.
  rewrite (zero_entries_distinct all_molecules [] Hnd) by (intros; apply not_elem_of_nil).
  simpl. set (d0 := (λ t, (t, 0%Z)) <$> all_molecules).
  assert (dict_keys d0 = all_molecules) as Hk0.
  { unfold d0, dict_keys. rewrite <-list_fmap_compose. apply list_fmap_id. }
  destruct (count_molecules_spec sample d0) as (d & Hd & Hk & Hg).
  { by rewrite Hk0. }
  rewrite Hd. f_equal. rewrite <-Hk0, <-Hk.
  apply dict_items_of_get.
  - unfold dict_wf. by rewrite Hk, Hk0.
  - intros t Ht. rewrite Hg. rewrite Hk, Hk0 in Ht.
    assert (dict_get d0 t = Some 0%Z) as ->.
    { apply dict_items_get; [unfold dict_wf; by rewrite Hk0|].
      unfold dict_items, d0. apply list_elem_of_fmap. by exists t. }
    simpl. by rewrite ?Z.add_0_l.
Qed.

(** X3. For distinct declared types and a declared sample, the tally lists
    the types in the order of [all_molecules], each with its number of
    occurrences: its [values()] are the counts in declaration order. *)
Theorem molecules_to_amounts_ordered (all_molecules sample : list Molecule) :
  NoDup all_molecules → Forall (λ m, m ∈ all_molecules) sample →
  molecules_to_amounts all_molecules sample
  = Ok ((λ t, (t, occurrences t sample)) <$> all_molecules)
  ∧ ∀ d, molecules_to_amounts all_molecules sample = Ok d →
      dict_keys d = all_molecules
      ∧ dict_values d = (λ t, occurrences t sample) <$> all_molecules.
Proof.
  intros Hnd Hall. rewrite (tally_ordered _ _ Hnd Hall). split; [done|].
  intros d [= <-]. unfold dict_keys, dict_values.
  rewrite <-!list_fmap_compose. split; [apply list_fmap_id | done].
Qed.

(** X3 with the types declared as B, A. *)
Lemma molecules_to_amounts_ordered_witness :
  NoDup [molB; molA] ∧ Forall (λ m, m ∈ [molB; molA]) [molA; molA]
  ∧ molecules_to_amounts [molB; molA] [molA; molA]
    = Ok ((λ t, (t, occurrences t [molA; molA])) <$> [molB; molA]).
Proof.
  assert (NoDup [molB; molA]) as Hnd.
  { apply (bool_decide_unpack (NoDup [molB; molA])). exact I. }
  assert (Forall (λ m, m ∈ [molB; molA]) [molA; molA]) as Hall.
  { repeat (apply Forall_cons; split; [solve [repeat constructor]|]). apply Forall_nil_2. }
  split; [exact Hnd|]. split; [exact Hall|].
  exact (proj1 (molecules_to_amounts_ordered [molB; molA] [molA; molA] Hnd Hall)).
Defined.

(** ** The constructor and the tally *)

Lemma occurrences_nil (t : Molecule) : occurrences t [] = 0%Z.
Proof. done. Qed.

Lemma occurrences_app (t : Molecule) (l1 l2 : list Molecule) :
  occurrences t (l1 ++ l2) = (occurrences t l1 + occurrences t l2)%Z.
Proof. unfold occurrences. rewrite filter_app, length_app. lia. Qed.

Lemma occurrences_replicate (t m : Molecule) (n : nat) :
  occurrences t (replicate n m) = if decide (m = t) then Z.of_nat n else 0%Z.
Proof.
  induction n as [|n IH]; simpl.
  - by destruct (decide (m = t)).
  - rewrite occurrences_cons, IH. destruct (decide (m = t)); lia.
Qed.

Lemma occurrences_nonneg (t : Molecule) (l : list Molecule) : (0 ≤ occurrences t l)%Z.
Proof. unfold occurrences. lia. Qed.

Lemma occurrences_le_length (t : Molecule) (l : list Molecule) :
  (occurrences t l ≤ Z.of_nat (length l))%Z.
Proof. unfold occurrences. pose proof (length_filter (λ m, m = t) l). lia. Qed.

Lemma occurrences_absent (t : Molecule) (l : list Molecule) : t ∉ l → occurrences t l = 0%Z.
Proof.
  induction l as [|m l IH]; [done|]. rewrite not_elem_of_cons, occurrences_cons.
  intros [Hne Hnin]. rewrite decide_False by done. rewrite IH by done. lia.
Qed.

(** The population the constructor builds holds [copies amount] molecules
    of each type of the amounts. *)
Lemma occurrences_population (amounts : Dict Molecule Z) (t : Molecule) :
  dict_wf amounts →
  occurrences t (mjoin ((λ '(molecule, amount), replicate (Z.to_nat amount) molecule) <$> amounts))
  = match dict_get amounts t with Some amount => copies amount | None => 0%Z end.
Proof.
  unfold dict_wf, dict_keys, copies.
  set (f := λ '(molecule, amount), replicate (Z.to_nat amount) molecule).
  induction amounts as [|[k0 a0] rest IH]; [done|].
  rewrite !fmap_cons.
  change (mjoin (f (k0, a0) :: (f <$> rest)))
    with (replicate (Z.to_nat a0) k0 ++ mjoin (f <$> rest)).
  cbn [dict_get fst]. rewrite NoDup_cons. intros [Hk0 Hnd].
  rewrite occurrences_app, occurrences_replicate, (IH Hnd).
  destruct (decide (k0 = t)) as [->|Hne].
  - apply (dict_get_None rest t) in Hk0. rewrite Hk0. lia.
  - destruct (dict_get rest t); lia.
Qed.

Lemma population_declared (amounts : Dict Molecule Z) :
  Forall (λ m, m ∈ dict_keys amounts)
    (mjoin ((λ '(molecule, amount), replicate (Z.to_nat amount) molecule) <$> amounts)).
Proof.
  unfold dict_keys. induction amounts as [|[m a] rest IH]; simpl; [constructor|].
  apply Forall_app. split.
  - apply Forall_replicate. by left.
  - eapply Forall_impl; [exact IH|]. intros x Hx. by right.
Qed.

Lemma Vessel_init_molecules (types : list Molecule) (amounts : Dict Molecule Z)
    (rules : list Reaction) :
  molecules (Vessel_init types amounts rules)
  = mjoin ((λ '(molecule, amount), replicate (Z.to_nat amount) molecule) <$> amounts).
Proof. simpl. by rewrite extend_all. Qed.

(** X4. Tallying the population that the constructor has built, over the
    types of the amounts in their order, gives the amounts back, a negative
    amount as 0: the constructor and the tally are inverse to each other. *)
Theorem Vessel_init_tally (types : list Molecule) (amounts : Dict Molecule Z)
    (rules : list Reaction) :
  dict_wf amounts →
  molecules_to_amounts (dict_keys amounts) (molecules (Vessel_init types amounts rules))
  = Ok ((λ '(molecule, amount), (molecule, copies amount)) <$> amounts).
Proof.
  intros Hwf. rewrite Vessel_init_molecules.
  rewrite tally_ordered; [|exact Hwf | apply population_declared].
  f_equal. unfold dict_keys. rewrite <-list_fmap_compose.
  apply Forall_fmap_ext, Forall_forall. intros [m a] Hin. cbn [compose fst]. f_equal.
  rewrite (occurrences_population amounts m Hwf).
  apply (dict_items_get amounts m a Hwf) in Hin. by rewrite Hin.
Qed.

(** X4 on the amounts B: 3, A: -1. *)
Lemma Vessel_init_tally_witness :
  dict_wf [(molB, 3%Z); (molA, (-1)%Z)]
  ∧ molecules_to_amounts [molB; molA]
      (molecules (Vessel_init [molA; molB] [(molB, 3%Z); (molA, (-1)%Z)] []))
    = Ok [(molB, 3%Z); (molA, 0%Z)].
Proof.
  assert (dict_wf [(molB, 3%Z); (molA, (-1)%Z)]) as Hwf.
  { apply (bool_decide_unpack (NoDup [molB; molA])). exact I. }
  split; [exact Hwf|].
  exact (Vessel_init_tally [molA; molB] [(molB, 3%Z); (molA, (-1)%Z)] [] Hwf).
Defined.

(** X5. The size M of the population that the constructor builds is the sum
    of the amounts, a negative amount counting as 0. *)
Theorem Vessel_init_size (types : list Molecule) (amounts : Dict Molecule Z)
    (rules : list Reaction) :
  Z.of_nat (length (molecules (Vessel_init types amounts rules)))
  = foldr Z.add 0%Z (copies <$> dict_values amounts).
Proof.
  rewrite Vessel_init_molecules. unfold dict_values.
  set (f := λ '(molecule, amount), replicate (Z.to_nat amount) molecule).
  induction amounts as [|[m a] rest IH]; [done|].
  rewrite !fmap_cons.
  change (mjoin (f (m, a) :: (f <$> rest)))
    with (replicate (Z.to_nat a) m ++ mjoin (f <$> rest)).
  cbn [foldr snd]. rewrite length_app, length_replicate, Nat2Z.inj_add, IH.
  unfold copies. lia.
Qed.

(** ** The rule test: more of a type never hurts *)

Lemma meets_more (needed : Dict Molecule Z) (x y : Molecule * Z) :
  x.1 = y.1 → (x.2 ≤ y.2)%Z → meets needed x → meets needed y.
Proof.
  intros Hk Hle (required & Hget & Hreq). exists required.
  rewrite <-Hk. split; [done | lia].
Qed.

(** X6. The rule test is monotone in the counts: a rule that accepts some
    counts accepts any counts over the same types, in the same order, that
    are at least as large. *)
Theorem can_occur_monotone (self : Reaction) (counts counts' : Dict Molecule Z) :
  Forall2 (λ x y, x.1 = y.1 ∧ (x.2 ≤ y.2)%Z) counts counts' →
  can_occur self counts = Ok true → can_occur self counts' = Ok true.
Proof.
  rewrite !can_occur_true. induction 1 as [|x y l l' [Hk Hle] _ IH]; [done|].
  rewrite !Forall_cons. intros [Hx Hl]. split; [by eapply meets_more | by apply IH].
Qed.

(** X6 on the rule A + B -> A, from the counts of A, B to those of A, A, B. *)
Lemma can_occur_monotone_witness :
  Forall2 (λ x y : Molecule * Z, x.1 = y.1 ∧ (x.2 ≤ y.2)%Z)
    counts_11 [(molA, 2%Z); (molB, 1%Z)]
  ∧ can_occur rule_AB_A counts_11 = Ok true
  ∧ can_occur rule_AB_A [(molA, 2%Z); (molB, 1%Z)] = Ok true.
Proof.
  assert (Forall2 (λ x y : Molecule * Z, x.1 = y.1 ∧ (x.2 ≤ y.2)%Z)
            counts_11 [(molA, 2%Z); (molB, 1%Z)]) as Hle.
  { repeat constructor; simpl; lia. }
  split; [exact Hle|]. split; [reflexivity|].
  exact (can_occur_monotone rule_AB_A counts_11 _ Hle eq_refl).
Defined.

(** A tally that exists is the tally of a declared sample. *)
Lemma tally_Ok_declared (all_molecules sample : list Molecule) (d : Dict Molecule Z) :
  molecules_to_amounts all_molecules sample = Ok d →
  Forall (λ m, m ∈ all_molecules) sample.
Proof.
  intros Hd. destruct (decide (Forall (λ m, m ∈ all_molecules) sample)) as [|Hnot]; [done|].
  unfold molecules_to_amounts in Hd. rewrite count_molecules_undeclared in Hd; [done|].
  intros Hkeys. apply Hnot. eapply Forall_impl; [exact Hkeys|].
  intros m Hm. exact (proj1 (zero_entries_keys all_molecules m) Hm).
Qed.

(** X7. A rule whose requirement is the tally of a list of reactants, as
    [simulate_basic] builds its rules, never raises on a tally over the same
    types, and accepts a sample exactly when every molecule occurs in the
    sample at least as often as among the reactants. *)
Theorem can_occur_of_tallies (all_molecules reactants sample : list Molecule)
    (needed counts : Dict Molecule Z) (p : Molecule) :
  molecules_to_amounts all_molecules reactants = Ok needed →
  molecules_to_amounts all_molecules sample = Ok counts →
  returned (can_occur {| reactants_needed := needed; product := p |} counts)
  ∧ (can_occur {| reactants_needed := needed; product := p |} counts = Ok true ↔
     ∀ t, (occurrences t reactants ≤ occurrences t sample)%Z).
Proof.
  intros Hn Hc.
  pose proof (tally_Ok_declared _ _ _ Hn) as Hr. pose proof (tally_Ok_declared _ _ _ Hc) as Hs.
  destruct (tally_spec _ _ Hr) as (needed' & Hn' & Hwfn & Hkn & Hgn & _).
  destruct (tally_spec _ _ Hs) as (counts' & Hc' & Hwfc & Hkc & Hgc & _).
  rewrite Hn in Hn'. injection Hn' as <-. rewrite Hc in Hc'. injection Hc' as <-.
  split.
  - destruct (can_occur _ counts) as [b|e] eqn:Heq; [by exists b|].
    apply can_occur_raises in Heq as (_ & pre & t & c & post & -> & _ & Hnone).
    simpl in Hnone. apply dict_get_None in Hnone. exfalso. apply Hnone, Hkn, Hkc.
    unfold dict_keys. rewrite fmap_app, fmap_cons. apply elem_of_app. right. by left.
  - rewrite can_occur_true, Forall_forall. simpl. split.
    + intros Hall t. destruct (decide (t ∈ all_molecules)) as [Ht|Ht].
      * destruct (Hall (t, occurrences t sample)) as (n & Hget & Hle).
        { apply (dict_items_get counts); [done | by apply Hgc]. }
        simpl in *. rewrite (Hgn t Ht) in Hget. injection Hget as <-. done.
      * rewrite (occurrences_absent t reactants).
        { apply occurrences_nonneg. }
        intros Hin. apply Ht. rewrite Forall_forall in Hr. by apply Hr.
    + intros Hle [t c] Hin. apply (dict_items_get counts t c Hwfc) in Hin.
      assert (t ∈ all_molecules) as Ht by (apply Hkc, dict_get_is_Some; eauto).
      rewrite (Hgc t Ht) in Hin. injection Hin as <-.
      exists (occurrences t reactants). simpl. split; [by apply Hgn | apply Hle].
Qed.

(** X7 on the reactants A, B and the sample A, A. *)
Lemma can_occur_of_tallies_witness :
  molecules_to_amounts [molA; molB] [molA; molB] = Ok counts_11
  ∧ molecules_to_amounts [molA; molB] [molA; molA] = Ok [(molA, 2%Z); (molB, 0%Z)]
  ∧ returned (can_occur {| reactants_needed := counts_11; product := molB |}
                [(molA, 2%Z); (molB, 0%Z)])
  ∧ (can_occur {| reactants_needed := counts_11; product := molB |}
       [(molA, 2%Z); (molB, 0%Z)] = Ok true ↔
     ∀ t, (occurrences t [molA; molB] ≤ occurrences t [molA; molA])%Z).
Proof.
  split; [reflexivity|]. split; [reflexivity|].
  exact (can_occur_of_tallies [molA; molB] [molA; molB] [molA; molA] _ _ molB eq_refl eq_refl).
Defined.

(** ** One step: what can go wrong, and what stays *)

Section step_more.
Context {G : Type} `{!Random G}.
Implicit Types (self : Vessel) (counts : Dict Molecule Z) (g : G).

Lemma step_length self k g :
  length (molecules (simulate_step self k g).1.2) = length (molecules self).
Proof.
  destruct (simulate_step_cases self k g)
    as [(e0 & g0 & Heq) | (reactants & g1 & counts & _ & _ & Heq)]; rewrite Heq; [done|].
  apply react_length.
Qed.

Lemma react_closure self counts rules g :
  Forall (λ m, m ∈ molecules self ∨ ∃ rule, rule ∈ rules ∧ m = product rule)
         (molecules (react self counts rules g).1.2).
Proof.
  assert (Forall (λ m, m ∈ molecules self ∨ ∃ rule, rule ∈ rules ∧ m = product rule)
                 (molecules self)) as Hold.
  { apply Forall_forall. intros m Hm. by left. }
  destruct (react_sound self counts rules g) as [| | | pre rule post i g' _ _ _ _ _ |];
    simpl; try done.
  apply Forall_insert; [done|]. right. exists rule. split; [|done].
  apply elem_of_app. right. by left.
Qed.

Lemma step_closure self k g :
  Forall (λ m, m ∈ molecules self ∨ ∃ rule, rule ∈ reactions self ∧ m = product rule)
         (molecules (simulate_step self k g).1.2).
Proof.
  destruct (simulate_step_cases self k g)
    as [(e0 & g0 & Heq) | (reactants & g1 & counts & _ & _ & Heq)]; rewrite Heq.
  - apply Forall_forall. intros m Hm. by left.
  - apply react_closure.
Qed.

Lemma step_keeps_ok self k g : vessel_ok self → vessel_ok (simulate_step self k g).1.2.
Proof.
  intros [Hpop Hprod Hreq].
  destruct (simulate_step_static self k g) as [Htypes Hrules].
  split; rewrite ?Htypes, ?Hrules; [|done..].
  eapply Forall_impl; [apply step_closure|]. intros m [Hm | (rule & Hrule & ->)]; simpl.
  - rewrite Forall_forall in Hpop. by apply Hpop.
  - rewrite Forall_forall in Hprod. by apply Hprod.
Qed.

Lemma steps_keep self k (n : nat) g :
  length (molecules (steps n self k g).1.2) = length (molecules self)
  ∧ molecule_types (steps n self k g).1.2 = molecule_types self
  ∧ reactions (steps n self k g).1.2 = reactions self
  ∧ (vessel_ok self → vessel_ok (steps n self k g).1.2).
Proof.
  revert self g. induction n as [|n IH]; intros self g; simpl;
    [do 3 (split; [done|]); auto|].
  pose proof (step_length self k g) as Hlen.
  pose proof (simulate_step_static self k g) as [Htypes Hrules].
  pose proof (step_keeps_ok self k g) as Hok.
  destruct (simulate_step self k g) as [[[[]|e] self1] g1]; simpl in *; [|done].
  destruct (IH self1 g1) as (Hl & Ht & Hr & Ho).
  rewrite Hl, Ht, Hr. do 3 (split; [done|]). auto.
Qed.
End step_more.

(** X8. With a lawful generator a step raises nothing but [ValueError] and
    [KeyError], and each for a reason that lies in its input: [ValueError]
    only when the sample size is outside [0, M] or the population is empty;
    [KeyError] only when the population holds an undeclared molecule or some
    rule has no entry for a declared type. *)
Theorem simulate_step_errors {G : Type} `{!Random G} `{!RandomLaws G}
    (self : Vessel) (k : Z) (g : G) (e : exn) (self' : Vessel) (g' : G) :
  simulate_step self k g = (Raise e, self', g') →
  (e = ValueError
   ∧ (¬ (0 ≤ k ≤ Z.of_nat (length (molecules self)))%Z ∨ molecules self = []))
  ∨ (e = KeyError
     ∧ ((∃ m, m ∈ molecules self ∧ m ∉ molecule_types self)
        ∨ (∃ rule t, rule ∈ reactions self ∧ t ∈ molecule_types self
                     ∧ t ∉ dict_keys (reactants_needed rule)))).
Proof.
  intros Hstep.
  destruct (decide (0 ≤ k ≤ Z.of_nat (length (molecules self)))%Z) as [Hk|Hk].
  2:{ left. unfold simulate_step, random_sample in Hstep.
      rewrite decide_False in Hstep by done. split; [congruence | by left]. }
  destruct (random_sample_Ok (molecules self) k g Hk) as (reactants & g1 & Hs & Hin & _).
  destruct (molecules_to_amounts (molecule_types self) reactants) as [counts|e0] eqn:Ht.
  - rewrite (simulate_step_react self k g reactants g1 counts Hs Ht) in Hstep.
    pose proof (tally_Ok_declared _ _ _ Ht) as Hdecl.
    destruct (tally_spec _ _ Hdecl) as (counts' & Ht' & _ & Hkeys & _).
    rewrite Ht in Ht'. injection Ht' as <-.
    pose proof (react_sound self counts (reactions self) g1) as Hout.
    rewrite Hstep in Hout.
    inversion Hout as [ | pre rule post e1 _ Hr Hrules | pre rule post _ _ Hnil Hrules
                        | | pre rule post i g2 _ _ Hms Hi Hge Hrules ]; subst.
    + right. apply can_occur_raises in Hr as (-> & pre' & t & c & post' & -> & _ & Hnone).
      split; [done|]. right. exists rule, t. split; [|split].
      * apply elem_of_app. right. by left.
      * apply Hkeys. unfold dict_keys. rewrite fmap_app, fmap_cons.
        apply elem_of_app. right. by left.
      * by apply dict_get_None.
    + left. split; [done | by right].
    + exfalso. pose proof (randbelow_lt (length (molecules self')) g1) as Hlt.
      rewrite Hi in Hlt. simpl in Hlt.
      destruct (molecules self'); [done | simpl in *; lia].
  - unfold simulate_step in Hstep. rewrite Hs, Ht in Hstep.
    apply tally_raises in Ht as (-> & m & Hm & Hnot).
    right. split; [congruence|]. left. exists m. split; [|done].
    rewrite Forall_forall in Hin. by apply Hin.
Qed.

(** X8 at a vessel whose first rule has no entry for the declared B. *)
Lemma simulate_step_errors_witness :
  simulate_step vessel_partial 2 ([1; 0] : Tape) = (Raise KeyError, vessel_partial, [0])
  ∧ ((KeyError = ValueError
      ∧ (¬ (0 ≤ 2 ≤ Z.of_nat (length (molecules vessel_partial)))%Z
         ∨ molecules vessel_partial = []))
     ∨ (KeyError = KeyError
        ∧ ((∃ m, m ∈ molecules vessel_partial ∧ m ∉ molecule_types vessel_partial)
           ∨ (∃ rule t, rule ∈ reactions vessel_partial ∧ t ∈ molecule_types vessel_partial
                        ∧ t ∉ dict_keys (reactants_needed rule))))).
Proof.
  split; [reflexivity|].
  exact (simulate_step_errors vessel_partial 2 ([1; 0] : Tape) KeyError vessel_partial [0]
           eq_refl).
Defined.

(** X9. Every molecule of the population after a step was in the population
    before it or is the product of a rule of the table: a step brings in
    nothing else. *)
Theorem simulate_step_closure {G : Type} `{!Random G} (self : Vessel) (k : Z) (g : G) :
  Forall (λ m, m ∈ molecules self ∨ ∃ rule, rule ∈ reactions self ∧ m = product rule)
         (molecules (simulate_step self k g).1.2).
Proof. apply step_closure. Qed.

(** X10. Through any number of successive steps, returned or cut short by an
    exception, the population keeps its length, the declared types and the
    rule table stay as they were, and a vessel whose population, products
    and requirements are declared stays such a vessel. *)
Theorem steps_invariant {G : Type} `{!Random G} (self : Vessel) (k : Z) (n : nat) (g : G) :
  length (molecules (steps n self k g).1.2) = length (molecules self)
  ∧ molecule_types (steps n self k g).1.2 = molecule_types self
  ∧ reactions (steps n self k g).1.2 = reactions self
  ∧ (vessel_ok self → vessel_ok (steps n self k g).1.2).
Proof. apply steps_keep. Qed.

Lemma occurrences_replace (t old x : Molecule) (l1 l2 : list Molecule) :
  occurrences t (l1 ++ x :: l2)
  = (occurrences t (l1 ++ old :: l2)
     - (if decide (old = t) then 1 else 0) + (if decide (x = t) then 1 else 0))%Z.
Proof. rewrite !occurrences_app, !occurrences_cons. lia. Qed.

Lemma occurrences_insert (t x old : Molecule) (l : list Molecule) (i : nat) :
  l !! i = Some old →
  occurrences t (<[i:=x]> l)
  = (occurrences t l
     - (if decide (old = t) then 1 else 0) + (if decide (x = t) then 1 else 0))%Z.
Proof.
  intros Hi. rewrite insert_take_drop by (by eapply lookup_lt_Some).
  rewrite (occurrences_replace t old x).
  by rewrite (take_drop_middle l i old Hi).
Qed.

(** X11. A step changes the number of molecules of any one type by at most
    one, up or down. *)
Theorem simulate_step_counts {G : Type} `{!Random G} (self : Vessel) (k : Z) (g : G)
    (t : Molecule) :
  (occurrences t (molecules self) - 1
   ≤ occurrences t (molecules (simulate_step self k g).1.2)
   ≤ occurrences t (molecules self) + 1)%Z.
Proof.
  destruct (simulate_step_cases self k g)
    as [(e0 & g0 & Heq) | (reactants & g1 & counts & _ & _ & Heq)]; rewrite Heq; simpl; [lia|].
  destruct (react_sound self counts (reactions self) g1)
    as [| | | pre rule post i g' _ _ _ _ Hlt |]; simpl; try lia.
  destruct (lookup_lt_is_Some_2 _ _ Hlt) as [old Hold].
  rewrite (occurrences_insert t (product rule) old _ i Hold).
  repeat case_decide; lia.
Qed.

(** ** The loop: what it hands over and what it leaves alone *)

Section loop_facts.
Context {G : Type} `{!Random G}.
Variables (all_molecules : list Molecule) (total_amount number_to_select : Z).

(** The body is a step followed by an observation that touches neither the
    vessel nor the generator. *)
Lemma loop_body_step (i : Z) (vessel : Vessel) (g : G) :
  (loop_body all_molecules total_amount number_to_select i vessel g).1.2
  = (simulate_step vessel number_to_select g).1.2
  ∧ (loop_body all_molecules total_amount number_to_select i vessel g).2
    = (simulate_step vessel number_to_select g).2
  ∧ (∀ e, (simulate_step vessel number_to_select g).1.1 = Raise e →
          (loop_body all_molecules total_amount number_to_select i vessel g).1.1 = Raise e)
  ∧ (∀ s, (loop_body all_molecules total_amount number_to_select i vessel g).1.1 = Ok s →
          (simulate_step vessel number_to_select g).1.1 = Ok () ∧ s.1.1 = (i + 1)%Z).
Proof.
  unfold loop_body.
  destruct (simulate_step vessel number_to_select g) as [[[[]|e] v1] g1]; simpl.
  - repeat split; try done.
    destruct (molecules_to_amounts all_molecules (molecules v1)) as [d|]; simpl in *; [|done].
    destruct (result_map _ (dict_values d)) as [ps|]; simpl in *; [|done].
    destruct (list_getitem ps 0); simpl in *; [|done].
    destruct (list_getitem ps 1); simpl in *; [|done].
    by injection H as <-.
  - repeat split; try done. intros e0 [= ->]. done.
Qed.

Lemma steps_S_Ok (n : nat) (self self1 : Vessel) (g g1 : G) :
  simulate_step self number_to_select g = (Ok (), self1, g1) →
  steps (S n) self number_to_select g = steps n self1 number_to_select g1.
Proof. simpl. by intros ->. Qed.

Lemma loop_trace (n : nat) (i : Z) (emitted : list Sample) (vessel : Vessel) (g : G) :
  ∃ (m : nat) (fresh : list Sample),
    m ≤ n
    ∧ (loop all_molecules total_amount number_to_select n i emitted vessel g).1.1.2
      = emitted ++ fresh
    ∧ fresh.*1.*1 = (λ j, (i + Z.of_nat j)%Z) <$> seq 1 (length fresh)
    ∧ (loop all_molecules total_amount number_to_select n i emitted vessel g).1.2
      = (steps m vessel number_to_select g).1.2
    ∧ (loop all_molecules total_amount number_to_select n i emitted vessel g).2
      = (steps m vessel number_to_select g).2
    ∧ match (loop all_molecules total_amount number_to_select n i emitted vessel g).1.1.1 with
      | Ok _ => m = n ∧ length fresh = n ∧ (steps m vessel number_to_select g).1.1 = Ok ()
      | Raise _ => length fresh < n ∧ m = S (length fresh)
      end.
Proof.
  revert i emitted vessel g. induction n as [|n IH]; intros i emitted vessel g; simpl.
  - exists 0, []. simpl. rewrite app_nil_r. by repeat split.
  - destruct (loop_body_step i vessel g) as (Hv & Hg & Hraise & Hok).
    destruct (loop_body all_molecules total_amount number_to_select i vessel g)
      as [[[s|e] v1] g1] eqn:Hbody; simpl in *.
    + destruct (Hok s eq_refl) as [Hstep Hs].
      assert (simulate_step vessel number_to_select g = (Ok (), v1, g1)) as Hstep'.
      { destruct (simulate_step vessel number_to_select g) as [[r v] g0].
        simpl in *. by subst. }
      destruct (IH (i + 1)%Z (emitted ++ [s]) v1 g1)
        as (m & fresh & Hm & Hem & Habs & Hves & Hgen & Hres).
      exists (S m), (s :: fresh). rewrite (steps_S_Ok m vessel v1 g g1 Hstep').
      split; [lia|]. split; [by rewrite Hem, <-app_assoc|]. split.
      { rewrite !fmap_cons, Hs, Habs. cbn [length].
        change (seq 1 (S (length fresh))) with (1 :: seq 2 (length fresh)).
        rewrite fmap_cons. f_equal; try lia.
        rewrite <-(fmap_S_seq 1), <-list_fmap_compose.
        apply list_fmap_ext. intros _ j _. simpl. lia. }
      split; [done|]. split; [done|].
      destruct (loop _ _ _ n _ _ v1 g1) as [[[[[]|e] em] v2] g2]; simpl in *; lia || (split; [lia|]; split; [lia | tauto]).
    + exists 1, []. simpl. rewrite app_nil_r.
      destruct (simulate_step vessel number_to_select g) as [[[[]|e0] v] g0]; simpl in *;
        subst; repeat split; lia.
Qed.
End loop_facts.

(** X13. The observation made in the loop has no effect on the dynamics: the
    vessel and the generator that a run leaves are those left by the same
    successive calls of [simulate_step] alone, as many as iterations were
    started; when the run returns, these are all of them and all
    returned. *)
Theorem run_follows_steps {G : Type} `{!Random G} (all_molecules : list Molecule)
    (total k iters : Z) (vessel : Vessel) (g : G) :
  ∃ m : nat,
    m ≤ Z.to_nat iters
    ∧ (run all_molecules total k iters vessel g).1.2 = (steps m vessel k g).1.2
    ∧ (run all_molecules total k iters vessel g).2 = (steps m vessel k g).2
    ∧ (returned (run all_molecules total k iters vessel g).1.1.1 →
       m = Z.to_nat iters ∧ (steps m vessel k g).1.1 = Ok ())
    ∧ (∀ e, (run all_molecules total k iters vessel g).1.1.1 = Raise e →
       m = S (length (run all_molecules total k iters vessel g).1.1.2)).
Proof.
  unfold run.
  destruct (loop_trace all_molecules total k (Z.to_nat iters) 0 [] vessel g)
    as (m & fresh & Hm & Hem & _ & Hv & Hg & Hres).
  exists m. simpl in Hem. rewrite Hem. do 3 (split; [done|]). split.
  - intros [[] Hr]. rewrite Hr in Hres. tauto.
  - intros e Hr. rewrite Hr in Hres. tauto.
Qed.

(** ** The percentages *)

Lemma float_of_int_raises (z : Z) (e : exn) : float_of_int z = Raise e → e = OverflowError.
Proof. unfold float_of_int. destruct (PrimFloat.is_infinity _); congruence. Qed.

Lemma float_of_int_zero : float_of_int 0 = Ok 0%float.
Proof. reflexivity. Qed.

(** X14. With a total of 0 the percentage is never computed: the division
    raises [ZeroDivisionError], unless the amount is too large for a float,
    in which case its conversion has raised [OverflowError] before. *)
Theorem percentage_zero_total (amount : Z) :
  (returned (float_of_int amount) → percentage amount 0 = Raise ZeroDivisionError)
  ∧ (percentage amount 0 = Raise ZeroDivisionError
     ∨ percentage amount 0 = Raise OverflowError).
Proof.
  unfold percentage. rewrite float_of_int_zero.
  destruct (float_of_int amount) as [a|e] eqn:Ha; simpl.
  - split; [done | by left].
  - apply float_of_int_raises in Ha as ->. split; [by intros [a [=]] | by right].
Qed.

Lemma percentage_zero_raises (amount : Z) : ¬ returned (percentage amount 0).
Proof.
  intros [p Hp]. destruct (percentage_zero_total amount) as [_ [H|H]]; congruence.
Qed.

Lemma result_map_Ok {A B} (f : A → result B) (xs : list A) (ys : list B) :
  result_map f xs = Ok ys → Forall2 (λ x y, f x = Ok y) xs ys.
Proof.
  revert ys. induction xs as [|x xs IH]; intros ys; simpl.
  - intros [= <-]. constructor.
  - destruct (f x) as [y|] eqn:Hy; simpl; [|done].
    destruct (result_map f xs) as [ys'|]; simpl; [|done].
    intros [= <-]. constructor; [done | by apply IH].
Qed.

Lemma result_map_returns {A B} (f : A → result B) (xs : list A) :
  Forall (λ x, returned (f x)) xs →
  ∃ ys, result_map f xs = Ok ys ∧ length ys = length xs.
Proof.
  induction 1 as [|x xs [y Hy] _ (ys & Hys & Hlen)]; simpl.
  - by exists [].
  - rewrite Hy, Hys. simpl. exists (y :: ys). simpl. by rewrite Hlen.
Qed.

(** The body of the loop does not return when the total is 0 or fewer than
    two types are declared. *)
Lemma loop_body_raises {G : Type} `{!Random G} (all_molecules : list Molecule)
    (total k i : Z) (vessel : Vessel) (g : G) :
  total = 0%Z ∨ length all_molecules < 2 →
  ∃ e, (loop_body all_molecules total k i vessel g).1.1 = Raise e.
Proof.
  intros Hbad. unfold loop_body.
  destruct (simulate_step vessel k g) as [[[[]|e] v1] g1]; simpl; [|eauto].
  destruct (molecules_to_amounts all_molecules (molecules v1)) as [d|e] eqn:Ht; simpl; [|eauto].
  destruct (result_map _ (dict_values d)) as [ps|e] eqn:Hps; simpl; [|eauto].
  apply result_map_Ok in Hps. pose proof (Forall2_length _ _ _ Hps) as Hlen.
  destruct (tally_spec _ _ (tally_Ok_declared _ _ _ Ht)) as (d' & Ht' & Hwf & Hkeys & _).
  rewrite Ht in Ht'. injection Ht' as <-.
  assert (length ps < 2 ∨ ps = []) as [Hshort | ->].
  { destruct Hbad as [-> | Hfew].
    - right. destruct Hps as [|v p vs ps Hp _]; [done|].
      exfalso. apply (percentage_zero_raises v). by exists p.
    - left. rewrite <-Hlen. unfold dict_values. rewrite length_fmap.
      rewrite <-(length_fmap fst d).
      assert (dict_keys d ⊆+ all_molecules) as Hsub.
      { apply NoDup_submseteq; [exact Hwf|]. intros t. apply Hkeys. }
      apply submseteq_length in Hsub. unfold dict_keys in Hsub. lia. }
  - destruct ps as [|p [|q ps]]; simpl in *; eauto; lia.
  - eauto.
Qed.

(** ** Runs that return *)

Lemma two_distinct_length {A} (l : list A) (x y : A) :
  x ∈ l → y ∈ l → x ≠ y → 2 ≤ length l.
Proof.
  destruct l as [|a [|b l]]; simpl; intros Hx Hy Hne; [| |lia].
  - by apply elem_of_nil in Hx.
  - apply list_elem_of_singleton in Hx, Hy. congruence.
Qed.

Lemma converts_returned (z : Z) : converts z = true ↔ returned (float_of_int z).
Proof.
  unfold converts, returned. destruct (float_of_int z) as [x|e].
  - split; eauto.
  - split; [done | by intros [? [=]]].
Qed.

Section completes.
Context {G : Type} `{!Random G} `{!RandomLaws G}.
Variables (all_molecules : list Molecule) (total k : Z) (M : nat).
Hypothesis Htotal : total ≠ 0%Z.
Hypothesis Hconv_total : converts total = true.
Hypothesis Hconv : ∀ z, (0 ≤ z ≤ Z.of_nat M)%Z → converts z = true.
Hypothesis Htwo : ∃ t1 t2, t1 ∈ all_molecules ∧ t2 ∈ all_molecules ∧ t1 ≠ t2.
Hypothesis Hk : (0 ≤ k ≤ Z.of_nat M)%Z.
Hypothesis HM : 0 < M.

Lemma percentage_returns (amount : Z) :
  (0 ≤ amount ≤ Z.of_nat M)%Z → returned (percentage amount total).
Proof.
  intros Ha. unfold percentage.
  destruct (proj1 (converts_returned amount) (Hconv amount Ha)) as [a ->].
  destruct (proj1 (converts_returned total) Hconv_total) as [t ->]. simpl.
  rewrite decide_False by done. by eexists.
Qed.

(** The observation of a declared population of size [M] returns. *)
Lemma observation_returns (i : Z) (population : list Molecule) :
  Forall (λ m, m ∈ all_molecules) population → length population = M →
  ∃ pA pB,
    (amounts_each ← molecules_to_amounts all_molecules population;
     percentages_each ←
       result_map (λ amount, percentage amount total) (dict_values amounts_each);
     pA ← list_getitem percentages_each 0;
     pB ← list_getitem percentages_each 1;
     Ok ((i + 1)%Z, pA, pB)) = Ok ((i + 1)%Z, pA, pB).
Proof.
  intros Hdecl Hlen.
  destruct (tally_spec _ _ Hdecl) as (d & -> & Hwf & Hkeys & Hget & _). simpl.
  destruct (result_map_returns (λ amount, percentage amount total) (dict_values d))
    as (ps & -> & Hps).
  { unfold dict_values. apply Forall_fmap, Forall_forall. intros [t c] Hin. simpl.
    apply percentage_returns. apply (dict_items_get d t c Hwf) in Hin.
    assert (t ∈ all_molecules) as Ht by (apply Hkeys, dict_get_is_Some; eauto).
    rewrite (Hget t Ht) in Hin. injection Hin as <-.
    pose proof (occurrences_nonneg t population).
    pose proof (occurrences_le_length t population). lia. }
  simpl. destruct Htwo as (t1 & t2 & H1 & H2 & Hne).
  assert (2 ≤ length ps) as Htwo_ps.
  { rewrite Hps. unfold dict_values. rewrite length_fmap, <-(length_fmap fst d).
    apply (two_distinct_length _ t1 t2); [by apply Hkeys | by apply Hkeys | done]. }
  destruct ps as [|pA [|pB ps]]; simpl in Htwo_ps; [lia | lia |].
  by exists pA, pB.
Qed.

Lemma loop_body_returns (i : Z) (vessel : Vessel) (g : G) :
  vessel_ok vessel → length (molecules vessel) = M →
  Forall (λ t, t ∈ all_molecules) (molecule_types vessel) →
  ∃ s vessel' g',
    loop_body all_molecules total k i vessel g = (Ok s, vessel', g')
    ∧ vessel_ok vessel' ∧ length (molecules vessel') = M
    ∧ molecule_types vessel' = molecule_types vessel.
Proof.
  intros Hok Hlen Htypes.
  destruct (simulate_step_returns vessel k g Hok)
    as (v1 & g1 & Hstep & Hok1 & _ & Hlen1 & Htypes1 & _).
  { intros Hnil. rewrite Hnil in Hlen. simpl in Hlen. lia. }
  { by rewrite Hlen. }
  unfold loop_body. rewrite Hstep. cbv beta iota.
  destruct (observation_returns i (molecules v1)) as (pA & pB & Hobs).
  - destruct Hok1 as [Hpop _ _]. rewrite Htypes1 in Hpop.
    rewrite Forall_forall in Hpop, Htypes |- *. auto.
  - congruence.
  - exists ((i + 1)%Z, pA, pB), v1, g1. split; [do 2 f_equal; exact Hobs|].
    split; [done|]. split; [congruence | done].
Qed.

Lemma loop_returns (n : nat) (i : Z) (emitted : list Sample) (vessel : Vessel) (g : G) :
  vessel_ok vessel → length (molecules vessel) = M →
  Forall (λ t, t ∈ all_molecules) (molecule_types vessel) →
  ∃ emitted' vessel' g',
    loop all_molecules total k n i emitted vessel g = (Ok (), emitted', vessel', g')
    ∧ vessel_ok vessel' ∧ length (molecules vessel') = M.
Proof.
  revert i emitted vessel g.
  induction n as [|n IH]; intros i emitted vessel g Hok Hlen Htypes; simpl.
  - by exists emitted, vessel, g.
  - destruct (loop_body_returns i vessel g Hok Hlen Htypes)
      as (s & v1 & g1 & -> & Hok1 & Hlen1 & Htypes1).
    apply IH; [done | done | by rewrite Htypes1].
Qed.
End completes.

(** A run from a vessel that the loop cannot fault returns. *)
Lemma run_returns {G : Type} `{!Random G} `{!RandomLaws G}
    (all_molecules : list Molecule) (total k : Z) (vessel : Vessel) :
  vessel_ok vessel → molecules vessel ≠ [] →
  (0 ≤ k ≤ Z.of_nat (length (molecules vessel)))%Z →
  Forall (λ t, t ∈ all_molecules) (molecule_types vessel) →
  (∃ t1 t2, t1 ∈ all_molecules ∧ t2 ∈ all_molecules ∧ t1 ≠ t2) →
  total ≠ 0%Z → converts total = true →
  (∀ z, (0 ≤ z ≤ Z.of_nat (length (molecules vessel)))%Z → converts z = true) →
  ∀ (iters : Z) (g : G),
    ∃ emitted vessel' g',
      run all_molecules total k iters vessel g = (Ok (), emitted, vessel', g')
      ∧ length emitted = Z.to_nat iters
      ∧ vessel_ok vessel'
      ∧ length (molecules vessel') = length (molecules vessel).
Proof.
  intros Hok Hms Hk Htypes Htwo Htotal Hct Hconv iters g.
  assert (0 < length (molecules vessel)) as HM by (destruct (molecules vessel); [done | simpl; lia]).
  unfold run.
  destruct (loop_returns all_molecules total k (length (molecules vessel))
              Htotal Hct Hconv Htwo Hk HM (Z.to_nat iters) 0 [] vessel g Hok eq_refl Htypes)
    as (emitted & v' & g' & Hloop & Hok' & Hlen').
  exists emitted, v', g'. split; [done|]. split; [|done].
  destruct (loop_trace all_molecules total k (Z.to_nat iters) 0 [] vessel g)
    as (m & fresh & _ & Hem & _ & _ & _ & Hres).
  rewrite Hloop in Hem, Hres. simpl in Hem, Hres. subst emitted. tauto.
Qed.

(** X16. The loop runs to its end. With a lawful generator, a non-empty
    vessel whose population, products and requirements are declared, a
    sample size in [0, M], at least two distinct types to observe that
    include the declared ones, a total other than 0, and conversions to
    float that return for the total and for every count up to M, a run of
    any length returns, hands one sample per iteration to the plot and
    leaves a vessel of the same kind and size. *)
Theorem run_completes {G : Type} `{!Random G} `{!RandomLaws G}
    (all_molecules : list Molecule) (total k : Z) (vessel : Vessel) :
  vessel_ok vessel → molecules vessel ≠ [] →
  (0 ≤ k ≤ Z.of_nat (length (molecules vessel)))%Z →
  Forall (λ t, t ∈ all_molecules) (molecule_types vessel) →
  (∃ t1 t2, t1 ∈ all_molecules ∧ t2 ∈ all_molecules ∧ t1 ≠ t2) →
  total ≠ 0%Z → converts total = true →
  (∀ z, (0 ≤ z ≤ Z.of_nat (length (molecules vessel)))%Z → converts z = true) →
  ∀ (iters : Z) (g : G),
    ∃ emitted vessel' g',
      run all_molecules total k iters vessel g = (Ok (), emitted, vessel', g')
      ∧ length emitted = Z.to_nat iters
      ∧ vessel_ok vessel'
      ∧ length (molecules vessel') = length (molecules vessel).
Proof. apply run_returns. Qed.

Lemma small_counts_convert (z : Z) : (0 ≤ z ≤ 4)%Z → converts z = true.
Proof.
  intros Hz.
  assert (z = 0 ∨ z = 1 ∨ z = 2 ∨ z = 3 ∨ z = 4)%Z as Hcases by lia.
  destruct Hcases as [->|[->|[->|[->| ->]]]]; reflexivity.
Qed.

(** X16 on the vessel A, A, B, B: a run of three iterations. *)
Lemma run_completes_witness :
  vessel_ok vessel_22 ∧ molecules vessel_22 ≠ []
  ∧ (0 ≤ 2 ≤ Z.of_nat (length (molecules vessel_22)))%Z
  ∧ Forall (λ t, t ∈ [molA; molB]) (molecule_types vessel_22)
  ∧ (∃ t1 t2, t1 ∈ [molA; molB] ∧ t2 ∈ [molA; molB] ∧ t1 ≠ t2)
  ∧ 4%Z ≠ 0%Z ∧ converts 4 = true
  ∧ (∀ z, (0 ≤ z ≤ Z.of_nat (length (molecules vessel_22)))%Z → converts z = true)
  ∧ ∃ emitted vessel' g',
      run [molA; molB] 4 2 3 vessel_22 ([0; 0; 0; 1; 0; 2] : Tape)
      = (Ok (), emitted, vessel', g')
      ∧ length emitted = Z.to_nat 3
      ∧ vessel_ok vessel'
      ∧ length (molecules vessel') = length (molecules vessel_22).
Proof.
  assert (molecules vessel_22 ≠ []) as Hms by discriminate.
  assert (0 ≤ 2 ≤ Z.of_nat (length (molecules vessel_22)))%Z as Hk by (simpl; lia).
  assert (Forall (λ t, t ∈ [molA; molB]) (molecule_types vessel_22)) as Htypes.
  { repeat (apply Forall_cons; split; [solve [repeat constructor]|]). apply Forall_nil_2. }
  assert (∃ t1 t2, t1 ∈ [molA; molB] ∧ t2 ∈ [molA; molB] ∧ t1 ≠ t2) as Htwo.
  { exists molA, molB. repeat split; [repeat constructor.. | discriminate]. }
  assert (4%Z ≠ 0%Z) as Htotal by discriminate.
  assert (∀ z, (0 ≤ z ≤ Z.of_nat (length (molecules vessel_22)))%Z → converts z = true)
    as Hconv by (intros z Hz; apply small_counts_convert; simpl in Hz; lia).
  do 8 (split; [first [exact vessel_22_ok | assumption | reflexivity]|]).
  exact (run_completes [molA; molB] 4 2 vessel_22 vessel_22_ok Hms Hk Htypes Htwo Htotal
           eq_refl Hconv 3 [0; 0; 0; 1; 0; 2]).
Defined.

(** ** [simulate_basic] *)

Lemma converts_from_spec (n : nat) (z y : Z) :
  converts_from z n = true → (z ≤ y < z + Z.of_nat n)%Z → converts y = true.
Proof.
  revert z. induction n as [|n IH]; intros z; simpl; [lia|].
  intros [Hz Hrest]%andb_prop Hy.
  destruct (decide (y = z)) as [->|Hne]; [done|].
  apply (IH (z + 1)%Z); [done | lia].
Qed.

Lemma counts_upto_convert : converts_from 0 (Z.to_nat 10001) = true.
Proof. vm_compute. reflexivity. Qed.

Lemma basic_counts_convert (z : Z) : (0 ≤ z ≤ 10000)%Z → converts z = true.
Proof.
  intros Hz. apply (converts_from_spec (Z.to_nat 10001) 0 z counts_upto_convert). lia.
Qed.

(** X17. [simulate_basic] runs to its end with every lawful generator: none of
    its 40000 steps and observations raises, each hands a sample to the plot,
    and the population still holds 10000 molecules. *)
Theorem simulate_basic_completes {G : Type} `{!Random G} `{!RandomLaws G} (g : G) :
  ∃ emitted vessel' g',
    simulate_basic g = (Ok (), emitted, Some vessel', g')
    ∧ length emitted = Z.to_nat 40000
    ∧ Z.of_nat (length (molecules vessel')) = 10000%Z.
Proof.
  pose proof basic_reactions_table as Htable.
  destruct (basic_reactions [molA; molB]) as [table|] eqn:Hbasic; [|done].
  set (v := Vessel_init [molA; molB] ((λ molecule, (molecule, 5000%Z)) <$> [molA; molB]) table).
  assert (simulate_basic g
          = let '(r, emitted, vessel', g') := run [molA; molB] 10000 2 40000 v g in
            (r, emitted, Some vessel', g')) as ->.
  { unfold simulate_basic. change (basic_reactions _) with (basic_reactions [molA; molB]).
    rewrite Hbasic. reflexivity. }
  injection Htable as Htable.
  assert (Z.of_nat (length (molecules v)) = 10000%Z) as Hlen.
  { subst v table. vm_compute. reflexivity. }
  destruct (run_returns [molA; molB] 10000 2 v) with (iters := 40000%Z) (g := g)
    as (emitted & v' & g' & Hrun & Hem & _ & Hlen').
  - subst v table. apply Vessel_init_ok; simpl.
    + repeat (apply Forall_cons; split; [solve [repeat constructor]|]). apply Forall_nil_2.
    + repeat (apply Forall_cons; split; [solve [repeat constructor]|]). apply Forall_nil_2.
    + repeat (apply Forall_cons; split; [intros t Ht; exact Ht|]). apply Forall_nil_2.
  - intros Hnil. rewrite Hnil in Hlen. discriminate.
  - rewrite Hlen. lia.
  - repeat (apply Forall_cons; split; [solve [repeat constructor]|]). apply Forall_nil_2.
  - exists molA, molB. repeat split; [repeat constructor.. | discriminate].
  - discriminate.
  - reflexivity.
  - intros z Hz. apply basic_counts_convert. lia.
  - rewrite Hrun. exists emitted, v', g'. split; [done|]. split; [done | congruence].
Qed.

(** X17 with the scripted generator on an empty tape. *)
Lemma simulate_basic_completes_witness :
  ∃ emitted vessel' g',
    simulate_basic ([] : Tape) = (Ok (), emitted, Some vessel', g')
    ∧ length emitted = Z.to_nat 40000
    ∧ Z.of_nat (length (molecules vessel')) = 10000%Z.
Proof. exact (simulate_basic_completes ([] : Tape)). Defined.

(** ** The reaction table of [simulate_basic] *)

Lemma result_map_Forall {A B} (f : A → result B) (P : B → Prop) (xs : list A) :
  (∀ x, x ∈ xs → ∃ y, f x = Ok y ∧ P y) →
  ∃ ys, result_map f xs = Ok ys ∧ Forall P ys ∧ length ys = length xs.
Proof.
  induction xs as [|x xs IH]; intros Hf; simpl.
  - exists []. by repeat split.
  - destruct (Hf x ltac:(by left)) as (y & -> & Hy).
    destruct IH as (ys & -> & Hys & Hlen).
    { intros x' Hx'. apply Hf. by right. }
    simpl. exists (y :: ys). repeat split; [by constructor | simpl; by rewrite Hlen].
Qed.

(** X18. The table construction of [simulate_basic], for any list of types in
    place of A and B. With fewer than two types it raises [IndexError]. With
    two or more it returns four rules; the requirement of each is total over
    the types and asks for two molecules in all, and each product is one of
    the first two types. *)
Theorem basic_reactions_rules (all_molecules : list Molecule) :
  (length all_molecules < 2 → basic_reactions all_molecules = Raise IndexError)
  ∧ (2 ≤ length all_molecules →
     ∃ rules,
       basic_reactions all_molecules = Ok rules
       ∧ length rules = 4
       ∧ Forall (λ rule,
                   dict_wf (reactants_needed rule)
                   ∧ (∀ t, t ∈ dict_keys (reactants_needed rule) ↔ t ∈ all_molecules)
                   ∧ sum_values (reactants_needed rule) = 2%Z
                   ∧ product rule ∈ take 2 all_molecules) rules).
Proof.
  split.
  - destruct all_molecules as [|a [|b rest]]; simpl; intros Hlen; [done | | lia].
    unfold basic_reactions. cbn [result_map].
    change (list_getitem [a] 0) with (Ok a). cbn [mbind result_bind].
    destruct (tally_spec [a] [a; a]) as (d & -> & _).
    { repeat (apply Forall_cons; split; [solve [repeat constructor]|]). apply Forall_nil_2. }
    done.
  - destruct all_molecules as [|a [|b rest]]; simpl; intros Hlen; [lia | lia |].
    unfold basic_reactions.
    match goal with |- ∃ rules, result_map ?f ?xs = _ ∧ _ ∧ Forall ?P _ =>
      destruct (result_map_Forall f P xs) as (rules & Hrules & HP & Hl)
    end.
    + intros [i j] Hin.
      assert (∀ x y : Molecule, x ∈ [a; b] → y ∈ [a; b] →
                Forall (λ m, m ∈ a :: b :: rest) [x; y]) as Hdecl.
      { intros x y Hx Hy. repeat (apply Forall_cons; split); [| |apply Forall_nil_2].
        - apply elem_of_cons in Hx as [->|Hx]; [by left|].
          apply list_elem_of_singleton in Hx as ->. right. by left.
        - apply elem_of_cons in Hy as [->|Hy]; [by left|].
          apply list_elem_of_singleton in Hy as ->. right. by left. }
      assert (∀ x y p : Molecule, x ∈ [a; b] → y ∈ [a; b] → p ∈ [a; b] →
                ∃ rule,
                  (reactants_amounts ← molecules_to_amounts (a :: b :: rest) [x; y];
                   Ok {| reactants_needed := reactants_amounts; product := p |}) = Ok rule
                  ∧ dict_wf (reactants_needed rule)
                  ∧ (∀ t, t ∈ dict_keys (reactants_needed rule) ↔ t ∈ a :: b :: rest)
                  ∧ sum_values (reactants_needed rule) = 2%Z
                  ∧ product rule ∈ [a; b]) as Hrule.
      { intros x y p Hx Hy Hp.
        destruct (tally_spec _ _ (Hdecl x y Hx Hy)) as (d & Hd & Hwf & Hkeys & _).
        rewrite Hd. simpl. eexists. split; [done|]. simpl.
        split; [done|]. split; [done|]. split; [|done].
        by rewrite (tally_sum _ _ _ Hd). }
      repeat (apply elem_of_cons in Hin as [[= -> ->]|Hin]);
        [..|by apply elem_of_nil in Hin]; simpl; apply Hrule; repeat constructor.
    + exists rules. by repeat split.
Qed.

(** ** Rules that are never applied *)



(** ** The plot lines, statement by statement *)

Section plot_facts.
Context {G : Type} `{!Random G}.
Variables (all_molecules : list Molecule) (total_amount number_to_select : Z).

(** An iteration on the plot lines and the same iteration recorded as a
    sample: they return or raise alike and leave the same vessel and
    generator; a returned iteration has handed its whole sample over, and a
    raised one is at most in the middle of that. *)
Lemma plot_body_refines (i : Z) (plot : Plot) (vessel : Vessel) (g : G) :
  (plot_body all_molecules total_amount number_to_select i plot vessel g).1.2
  = (loop_body all_molecules total_amount number_to_select i vessel g).1.2
  ∧ (plot_body all_molecules total_amount number_to_select i plot vessel g).2
    = (loop_body all_molecules total_amount number_to_select i vessel g).2
  ∧ match (loop_body all_molecules total_amount number_to_select i vessel g).1.1 with
    | Ok s =>
        (plot_body all_molecules total_amount number_to_select i plot vessel g).1.1.1 = Ok ()
        ∧ (plot_body all_molecules total_amount number_to_select i plot vessel g).1.1.2
          = plot_add plot s
    | Raise e =>
        (plot_body all_molecules total_amount number_to_select i plot vessel g).1.1.1 = Raise e
        ∧ plot_partial (i + 1) plot
            (plot_body all_molecules total_amount number_to_select i plot vessel g).1.1.2
    end.
Proof.
  unfold plot_body, loop_body.
  destruct (simulate_step vessel number_to_select g) as [[[[]|e] v1] g1]; simpl;
    [|by repeat split; left].
  destruct (molecules_to_amounts all_molecules (molecules v1)) as [d|e]; simpl;
    [|by repeat split; left].
  destruct (result_map _ (dict_values d)) as [ps|e]; simpl; [|by repeat split; left].
  destruct (list_getitem ps 0) as [pA|e]; simpl; [|by repeat split; right; left].
  destruct (list_getitem ps 1) as [pB|e]; simpl; [done|].
  repeat split. right. right. by exists pA.
Qed.

Lemma plot_loop_refines (n : nat) (i : Z) (emitted : list Sample) (plot : Plot)
    (vessel : Vessel) (g : G) :
  ∃ fresh : list Sample,
    (loop all_molecules total_amount number_to_select n i emitted vessel g).1.1.2
    = emitted ++ fresh
    ∧ (plot_loop all_molecules total_amount number_to_select n i plot vessel g).1.1.1
      = (loop all_molecules total_amount number_to_select n i emitted vessel g).1.1.1
    ∧ (plot_loop all_molecules total_amount number_to_select n i plot vessel g).1.2
      = (loop all_molecules total_amount number_to_select n i emitted vessel g).1.2
    ∧ (plot_loop all_molecules total_amount number_to_select n i plot vessel g).2
      = (loop all_molecules total_amount number_to_select n i emitted vessel g).2
    ∧ match (loop all_molecules total_amount number_to_select n i emitted vessel g).1.1.1 with
      | Ok _ =>
          (plot_loop all_molecules total_amount number_to_select n i plot vessel g).1.1.2
          = plot_adds plot fresh
      | Raise _ =>
          plot_partial (i + Z.of_nat (length fresh) + 1) (plot_adds plot fresh)
            (plot_loop all_molecules total_amount number_to_select n i plot vessel g).1.1.2
      end.
Proof.
  revert i emitted plot vessel g.
  induction n as [|n IH]; intros i emitted plot vessel g; simpl.
  - exists []. by rewrite app_nil_r.
  - destruct (plot_body_refines i plot vessel g) as (Hv & Hg & Hres).
    destruct (loop_body all_molecules total_amount number_to_select i vessel g)
      as [[[s|e] v1] g1]; simpl in *.
    + destruct (plot_body all_molecules total_amount number_to_select i plot vessel g)
        as [[[r p1] v1'] g1']; simpl in *. destruct Hres as [-> ->]. subst v1' g1'.
      destruct (IH (i + 1)%Z (emitted ++ [s]) (plot_add plot s) v1 g1)
        as (fresh & Hem & Hr & Hv' & Hg' & Hplot).
      exists (s :: fresh). rewrite Hem, <-app_assoc. do 4 (split; [done|]).
      destruct (loop _ _ _ n _ _ v1 g1).1.1.1; [done|].
      simpl length.
      replace (i + Z.of_nat (S (length fresh)) + 1)%Z
        with (i + 1 + Z.of_nat (length fresh) + 1)%Z by lia.
      exact Hplot.
    + destruct (plot_body all_molecules total_amount number_to_select i plot vessel g)
        as [[[r p1] v1'] g1']; simpl in *. destruct Hres as [-> Hpart]. subst v1' g1'.
      exists []. rewrite app_nil_r. do 4 (split; [done|]).
      unfold plot_adds. simpl.
      replace (i + Z.of_nat 0 + 1)%Z with (i + 1)%Z by lia. exact Hpart.
Qed.

(** With total 0 and a type to observe, no plot statement is reached. *)
Lemma plot_body_zero_total (i : Z) (plot : Plot) (vessel : Vessel) (g : G) :
  total_amount = 0%Z → all_molecules ≠ [] →
  (plot_body all_molecules total_amount number_to_select i plot vessel g).1.1.2 = plot.
Proof.
  intros -> Hall. unfold plot_body.
  destruct (simulate_step vessel number_to_select g) as [[[[]|e] v1] g1]; simpl; [|done].
  destruct (molecules_to_amounts all_molecules (molecules v1)) as [d|e] eqn:Ht; simpl; [|done].
  destruct (result_map _ (dict_values d)) as [ps|e] eqn:Hps; simpl; [|done].
  exfalso. apply result_map_Ok in Hps.
  destruct (tally_spec _ _ (tally_Ok_declared _ _ _ Ht)) as (d' & Ht' & _ & Hkeys & _).
  rewrite Ht in Ht'. injection Ht' as <-.
  destruct d as [|[t0 c0] d0].
  - destruct all_molecules as [|t rest]; [done|].
    assert (t ∈ dict_keys (@nil (Molecule * Z))) as Hin by (apply Hkeys; by left).
    by apply elem_of_nil in Hin.
  - apply Forall2_cons_inv_l in Hps as (p & ps' & Hp & _ & _).
    apply (percentage_zero_raises c0). by exists p.
Qed.
End plot_facts.

Lemma plot_adds_data (samples : list Sample) (plot : Plot) :
  xdata (plot_A (plot_adds plot samples)) = xdata (plot_A plot) ++ samples.*1.*1
  ∧ ydata (plot_A (plot_adds plot samples)) = ydata (plot_A plot) ++ samples.*1.*2
  ∧ xdata (plot_B (plot_adds plot samples)) = xdata (plot_B plot) ++ samples.*1.*1
  ∧ ydata (plot_B (plot_adds plot samples)) = ydata (plot_B plot) ++ samples.*2.
Proof.
  unfold plot_adds. revert plot. induction samples as [|s rest IH]; intros plot.
  - simpl. by rewrite !app_nil_r.
  - cbn [foldl]. destruct (IH (plot_add plot s)) as (H1 & H2 & H3 & H4).
    rewrite H1, H2, H3, H4, !fmap_cons. simpl. by rewrite <-!app_assoc.
Qed.



(** X15. An iteration of the loop raises whenever the total is 0 or fewer
    than two types are declared. [plot_B] receives no ordinate in it; the
    plot is the one before the iteration, or has received the abscissa of
    [plot_A] only, or also the ordinate of [plot_A] and the abscissa of
    [plot_B]. With the total 0 and a declared type, no plot statement is
    reached. *)
Theorem plot_body_needs {G : Type} `{!Random G} (all_molecules : list Molecule)
    (total k i : Z) (plot : Plot) (vessel : Vessel) (g : G) :
  total = 0%Z ∨ length all_molecules < 2 →
  (∃ e, (plot_body all_molecules total k i plot vessel g).1.1.1 = Raise e)
  ∧ plot_partial (i + 1) plot (plot_body all_molecules total k i plot vessel g).1.1.2
  ∧ ydata (plot_B (plot_body all_molecules total k i plot vessel g).1.1.2)
    = ydata (plot_B plot)
  ∧ (total = 0%Z → all_molecules ≠ [] →
     (plot_body all_molecules total k i plot vessel g).1.1.2 = plot).
Proof.
  intros Hbad.
  destruct (loop_body_raises all_molecules total k i vessel g Hbad) as [e He].
  destruct (plot_body_refines all_molecules total k i plot vessel g) as (_ & _ & Hres).
  rewrite He in Hres. destruct Hres as [Hr Hpart].
  split; [eauto|]. split; [done|]. split.
  - by destruct Hpart as [-> | [-> | (pA & ->)]].
  - apply plot_body_zero_total.
Qed.

(** X15 with A as the only type: [plot_A] receives the abscissa 1 and its
    ordinate, [plot_B] the abscissa only. *)
Lemma plot_body_needs_witness :
  (4%Z = 0%Z ∨ length [molA] < 2)
  ∧ (∃ e,
       (plot_body [molA] 4 2 0
          {| plot_A := {| xdata := [0%Z]; ydata := [4%float] |};
             plot_B := {| xdata := [0%Z]; ydata := [4%float] |} |}
          (Vessel_init [molA] [(molA, 4%Z)] []) ([0] : Tape)).1.1.1 = Raise e)
  ∧ (plot_body [molA] 4 2 0
       {| plot_A := {| xdata := [0%Z]; ydata := [4%float] |};
          plot_B := {| xdata := [0%Z]; ydata := [4%float] |} |}
       (Vessel_init [molA] [(molA, 4%Z)] []) ([0] : Tape)).1.1.2
    = {| plot_A := {| xdata := [0%Z; 1%Z]; ydata := [4%float; 100%float] |};
         plot_B := {| xdata := [0%Z; 1%Z]; ydata := [4%float] |} |}.
Proof.
  assert (4%Z = 0%Z ∨ length [molA] < 2) as Hbad by (right; simpl; lia).
  split; [exact Hbad|]. split; [|vm_compute; reflexivity].
  exact (proj1 (plot_body_needs [molA] 4 2 0
                  {| plot_A := {| xdata := [0%Z]; ydata := [4%float] |};
                     plot_B := {| xdata := [0%Z]; ydata := [4%float] |} |}
                  (Vessel_init [molA] [(molA, 4%Z)] []) ([0] : Tape) Hbad)).
Defined.

(** X20. The samples that [run] records are what the plot lines receive. A
    run on the plot lines and the same run recorded as samples return or
    raise alike and leave the same vessel and generator. When they return,
    the plot is the initial plot with every recorded sample appended to the
    four arrays, in order; when they raise, [plot_B] has received the
    ordinates of exactly the recorded samples, and the plot is the one with
    the recorded samples appended, or in the middle of the hand-over of the
    next abscissa. *)
Theorem plot_run_refines {G : Type} `{!Random G} (all_molecules : list Molecule)
    (total k iters : Z) (plot : Plot) (vessel : Vessel) (g : G) :
  (plot_run all_molecules total k iters plot vessel g).1.1.1
  = (run all_molecules total k iters vessel g).1.1.1
  ∧ (plot_run all_molecules total k iters plot vessel g).1.2
    = (run all_molecules total k iters vessel g).1.2
  ∧ (plot_run all_molecules total k iters plot vessel g).2
    = (run all_molecules total k iters vessel g).2
  ∧ ydata (plot_B (plot_run all_molecules total k iters plot vessel g).1.1.2)
    = ydata (plot_B plot) ++ (run all_molecules total k iters vessel g).1.1.2.*2
  ∧ (returned (run all_molecules total k iters vessel g).1.1.1 →
     (plot_run all_molecules total k iters plot vessel g).1.1.2
     = plot_adds plot (run all_molecules total k iters vessel g).1.1.2)
  ∧ (∀ e, (run all_molecules total k iters vessel g).1.1.1 = Raise e →
     plot_partial (Z.of_nat (length (run all_molecules total k iters vessel g).1.1.2) + 1)
       (plot_adds plot (run all_molecules total k iters vessel g).1.1.2)
       (plot_run all_molecules total k iters plot vessel g).1.1.2).
Proof.
  unfold plot_run, run.
  destruct (plot_loop_refines all_molecules total k (Z.to_nat iters) 0 [] plot vessel g)
    as (fresh & Hem & Hr & Hv & Hg & Hplot).
  simpl in Hem. rewrite Hem. do 3 (split; [done|]).
  destruct (plot_adds_data fresh plot) as (_ & _ & _ & HBy).
  destruct ((loop all_molecules total k (Z.to_nat iters) 0 [] vessel g).1.1.1) as [[]|e].
  - rewrite Hplot. split; [done|]. split; [done|]. intros e [=].
  - split; [|split].
    + rewrite <-HBy. by destruct Hplot as [-> | [-> | (pA & ->)]].
    + by intros [? [=]].
    + intros e' _. by replace (Z.of_nat (length fresh) + 1)%Z
        with (0 + Z.of_nat (length fresh) + 1)%Z by lia.
Qed.
